(** * PCF85263 real-time-clock driver (drivers/timers/pcf85263.c)

    A shallow embedding of the driver: the BCD codec ([rtc_bin2bcd],
    [rtc_bcd2bin]), the session state ([g_rtc_enabled], [g_pcf85263]) and
    the two time operations ([up_rtc_getdatetime], [up_rtc_settime]) over an
    injected I2C transport.

    C integers are modelled as [Z]; a value stored in a [uint8_t] is reduced
    modulo 256 where the C code stores it. *)

From Stdlib Require Import ZArith List Bool Lia.
Import ListNotations.

Local Open Scope Z_scope.

(** ** Integer helpers *)

(** Conversion to [uint8_t]. *)
Definition to_uint8 (x : Z) : Z := x mod 256.

(** ** BCD codec *)

Module BCD.

(** The [while (value >= 10) { msbcd++; value -= 10; }] loop of
    [rtc_bin2bcd]; [msbcd] is a [uint8_t], [value] an [int].  Every
    iteration lowers [value] by 10, so [Z.to_nat value] iterations are
    always enough (see [bin2bcd_loop_exits]). *)
Fixpoint bin2bcd_loop (fuel : nat) (msbcd value : Z) : Z * Z :=
  match fuel with
  | O => (msbcd, value)
  | S fuel' =>
      if value >=? 10
      then bin2bcd_loop fuel' (to_uint8 (msbcd + 1)) (value - 10)
      else (msbcd, value)
  end.

(** [static uint8_t rtc_bin2bcd(int value)] *)
Definition rtc_bin2bcd (value : Z) : Z :=
  let '(msbcd, value') := bin2bcd_loop (Z.to_nat value) 0 value in
  to_uint8 (Z.lor (Z.shiftl msbcd 4) value').

(** [static int rtc_bcd2bin(uint8_t value)] *)
Definition rtc_bcd2bin (value : Z) : Z :=
  let value := to_uint8 value in
  let tens := Z.shiftr value 4 * 10 in
  tens + Z.land value 0x0f.

(** A packed-BCD byte: both nibbles are decimal digits. *)
Definition valid_bcd (b : Z) : Prop :=
  0 <= b < 256 /\ Z.shiftr b 4 <= 9 /\ Z.land b 0x0f <= 9.

End BCD.

Import BCD.

(** ** Calendar types *)

(** [struct tm]: the broken-down time.  [tm_wday] is a member only when
    [CONFIG_LIBC_LOCALTIME] or [CONFIG_TIME_EXTENDED] is defined; when it is
    not, the driver never touches the field.  The members [tm_yday] and
    [tm_isdst], which the driver neither reads nor writes, are left out. *)
Record tm : Type := mk_tm {
  tm_sec : Z;
  tm_min : Z;
  tm_hour : Z;
  tm_mday : Z;
  tm_mon : Z;
  tm_year : Z;
  tm_wday : Z
}.

(** [struct timespec] *)
Record timespec : Type := mk_timespec {
  tv_sec : Z;
  tv_nsec : Z
}.

(** ** The I2C transport *)

Module I2C.

(** [struct i2c_msg_s].  [buffer] holds the bytes of a message that is
    written; for a message that is read the bytes come back as the result
    of the transfer. *)
Record i2c_msg_s : Type := mk_msg {
  frequency : Z;
  addr : Z;
  flags : Z;
  buffer : list Z;
  length : Z
}.

(** The bus driver behind [I2C_TRANSFER(dev, msgs, count)]: from the state
    of the bus and the messages, the returned status, the bytes stored in
    the buffers of the messages that are read (in message order) and the
    next state of the bus. *)
Record i2c_ops (i2c_master_s : Type) : Type := mk_ops {
  I2C_TRANSFER : i2c_master_s -> list i2c_msg_s -> Z * list (list Z) * i2c_master_s
}.

Arguments I2C_TRANSFER {i2c_master_s} _ _ _.

(** One transfer as seen on the bus: what was sent, what came back. *)
Record i2c_xfer : Type := mk_xfer {
  xfer_msgs : list i2c_msg_s;
  xfer_ret : Z;
  xfer_data : list (list Z)
}.

(** A bus that records every transfer made on it. *)
Definition logged {bus : Type} (ops : i2c_ops bus) : i2c_ops (bus * list i2c_xfer) :=
  {| I2C_TRANSFER := fun s msgs =>
       let '(ret, rd, b') := I2C_TRANSFER ops (fst s) msgs in
       (ret, rd, (b', snd s ++ [mk_xfer msgs ret rd])) |}.

End I2C.

Import I2C.

(** Byte [k] of a [uint8_t] buffer. *)
Definition byte_at (buf : list Z) (k : nat) : Z := to_uint8 (nth k buf 0).

(** ** What the driver takes from the rest of the system

    The register map of [pcf85263.h], the configuration, the error numbers
    and the C library's calendar conversions are not part of the driver's
    source file; the driver is modelled over any choice of them. *)
Record platform : Type := mk_platform {
  CONFIG_PCF85263_I2C_FREQUENCY : Z;
  CONFIG_LIBC_LOCALTIME : bool;
  CONFIG_TIME_EXTENDED : bool;
  I2C_M_READ : Z;
  EAGAIN : Z;
  EINVAL : Z;
  PCF85263_RTC_100TH_SECONDS : Z;
  PCF85263_RTC_SECONDS : Z;
  PCF85263_RTC_SECONDS_MASK : Z;
  PCF85263_RTC_MINUTES_MASK : Z;
  PCF85263_RTC_HOURS24_MASK : Z;
  PCF85263_RTC_DAYS_MASK : Z;
  PCF85263_RTC_WEEKDAYS_MASK : Z;
  PCF85263_RTC_MONTHS_MASK : Z;
  (** conversion to [time_t] *)
  to_time_t : Z -> Z;
  (** [localtime_r] and [gmtime_r]; [None] stands for a [NULL] result *)
  localtime_r : Z -> option tm;
  gmtime_r : Z -> option tm
}.

(** [#define PCF85263_I2C_ADDRESS 0x51] *)
Definition PCF85263_I2C_ADDRESS : Z := 0x51.

(** "Zero (OK) on success" *)
Definition OK : Z := 0.

(** ** Session state *)

(** [struct pcf85263_dev_s]; the bus driver it refers to is carried as the
    state of that bus. *)
Record pcf85263_dev_s (bus : Type) : Type := mk_dev {
  i2c : bus
}.

Arguments mk_dev {bus} _.
Arguments i2c {bus} _.

(** The driver's globals: [g_rtc_enabled] and [g_pcf85263]. *)
Record rtc_state (bus : Type) : Type := mk_state {
  g_rtc_enabled : bool;
  g_pcf85263 : pcf85263_dev_s bus
}.

Arguments mk_state {bus} _ _.
Arguments g_rtc_enabled {bus} _.
Arguments g_pcf85263 {bus} _.

(** How a do-while loop over [I2C_TRANSFER] ends. *)
Inductive transfer_result : Type :=
| TransferFailed (ret : Z)
| TransferDone (rd : list (list Z)).

Section Driver.

Context (P : platform) {bus : Type} (ops : i2c_ops bus).

(** [defined(CONFIG_LIBC_LOCALTIME) || defined(CONFIG_TIME_EXTENDED)] *)
Definition wday_tracked : bool :=
  CONFIG_LIBC_LOCALTIME P || CONFIG_TIME_EXTENDED P.

(** [int pcf85263_rtc_initialize(FAR struct i2c_master_s *i2c)] *)
Definition pcf85263_rtc_initialize (dev : bus) (st : rtc_state bus)
  : Z * rtc_state bus :=
  (OK, mk_state true (mk_dev dev)).

(** The loop shared by both operations:
[[
  do
    {
      ret = I2C_TRANSFER(g_pcf85263.i2c, msg, n);
      if (ret < 0)
        {
          return ret;
        }
    }
  while (again);
]]
    [again] is evaluated on the buffers the transfer has just filled.  The
    loop has no bound of its own, so it runs on fuel: [None] means the
    fuel ran out before the loop ended. *)
Fixpoint transfer_do_while (msg : list i2c_msg_s) (again : list (list Z) -> bool)
    (fuel : nat) (dev : bus) : option transfer_result * bus :=
  match fuel with
  | O => (None, dev)
  | S fuel' =>
      let '(ret, rd, dev') := I2C_TRANSFER ops dev msg in
      if ret <? 0 then (Some (TransferFailed ret), dev')
      else if again rd then transfer_do_while msg again fuel' dev'
      else (Some (TransferDone rd), dev')
  end.

(** The four messages of [up_rtc_getdatetime]. *)
Definition getdatetime_msg : list i2c_msg_s :=
  let secaddr := to_uint8 (PCF85263_RTC_SECONDS P) in
  [ mk_msg (CONFIG_PCF85263_I2C_FREQUENCY P) PCF85263_I2C_ADDRESS 0 [secaddr] 1;
    mk_msg (CONFIG_PCF85263_I2C_FREQUENCY P) PCF85263_I2C_ADDRESS (I2C_M_READ P) [] 7;
    mk_msg (CONFIG_PCF85263_I2C_FREQUENCY P) PCF85263_I2C_ADDRESS 0 [secaddr] 1;
    mk_msg (CONFIG_PCF85263_I2C_FREQUENCY P) PCF85263_I2C_ADDRESS (I2C_M_READ P) [] 1 ].

(** [buffer] (the 7 registers) and [seconds] (the second sample) after a
    transfer of [getdatetime_msg]. *)
Definition getdatetime_buffer (rd : list (list Z)) : list Z := nth 0 rd [].
Definition getdatetime_seconds (rd : list (list Z)) : Z := byte_at (nth 1 rd []) 0.

(** [(buffer[0] & PCF85263_RTC_SECONDS_MASK) > (seconds & PCF85263_RTC_SECONDS_MASK)] *)
Definition getdatetime_again (rd : list (list Z)) : bool :=
  Z.land (byte_at (getdatetime_buffer rd) 0) (PCF85263_RTC_SECONDS_MASK P)
  >? Z.land (getdatetime_seconds rd) (PCF85263_RTC_SECONDS_MASK P).

(** "Format the return time" *)
Definition getdatetime_format (buffer : list Z) (tp : tm) : tm :=
  {| tm_sec := rtc_bcd2bin (Z.land (byte_at buffer 0) (PCF85263_RTC_SECONDS_MASK P));
     tm_min := rtc_bcd2bin (Z.land (byte_at buffer 1) (PCF85263_RTC_MINUTES_MASK P));
     tm_hour := rtc_bcd2bin (Z.land (byte_at buffer 2) (PCF85263_RTC_HOURS24_MASK P));
     tm_mday := rtc_bcd2bin (Z.land (byte_at buffer 3) (PCF85263_RTC_DAYS_MASK P));
     tm_wday :=
       if wday_tracked
       then Z.land (rtc_bcd2bin (byte_at buffer 4)) (PCF85263_RTC_WEEKDAYS_MASK P)
       else tm_wday tp;
     tm_mon := rtc_bcd2bin (Z.land (byte_at buffer 5) (PCF85263_RTC_MONTHS_MASK P)) - 1;
     tm_year := rtc_bcd2bin (byte_at buffer 6) + 68 |}.

(** The date/time of the epoch, returned while the RTC is not enabled. *)
Definition getdatetime_epoch (tp : tm) : tm :=
  {| tm_sec := 0;
     tm_min := 0;
     tm_hour := 0;
     tm_wday := if wday_tracked then 4 else tm_wday tp;
     tm_mday := 1;
     tm_mon := 0;
     tm_year := 70 |}.

(** [int up_rtc_getdatetime(FAR struct tm *tp)]: the returned status
    ([None] when the fuel ran out inside the loop), the contents of [*tp]
    and the globals afterwards. *)
Definition up_rtc_getdatetime (fuel : nat) (st : rtc_state bus) (tp : tm)
  : option Z * tm * rtc_state bus :=
  if negb (g_rtc_enabled st) then
    (Some (- EAGAIN P), getdatetime_epoch tp, st)
  else
    match transfer_do_while getdatetime_msg getdatetime_again fuel
            (i2c (g_pcf85263 st)) with
    | (None, dev') => (None, tp, mk_state (g_rtc_enabled st) (mk_dev dev'))
    | (Some (TransferFailed ret), dev') =>
        (Some ret, tp, mk_state (g_rtc_enabled st) (mk_dev dev'))
    | (Some (TransferDone rd), dev') =>
        (Some OK, getdatetime_format (getdatetime_buffer rd) tp,
         mk_state (g_rtc_enabled st) (mk_dev dev'))
    end.

(** [newtime]: [tv_sec] as a [time_t], plus one when [tv_nsec >= 500000000]. *)
Definition settime_newtime (tp : timespec) : Z :=
  let newtime := to_time_t P (tv_sec tp) in
  if tv_nsec tp >=? 500000000 then to_time_t P (newtime + 1) else newtime.

(** [localtime_r] under [CONFIG_LIBC_LOCALTIME], [gmtime_r] otherwise. *)
Definition settime_calendar (newtime : Z) : option tm :=
  if CONFIG_LIBC_LOCALTIME P then localtime_r P newtime else gmtime_r P newtime.

(** "Construct the message": the 9 bytes of [buffer]. *)
Definition settime_buffer (newtm : tm) : list Z :=
  [ to_uint8 (PCF85263_RTC_100TH_SECONDS P);
    0;
    rtc_bin2bcd (tm_sec newtm);
    rtc_bin2bcd (tm_min newtm);
    rtc_bin2bcd (tm_hour newtm);
    rtc_bin2bcd (tm_mday newtm);
    if wday_tracked then rtc_bin2bcd (tm_wday newtm) else 0;
    rtc_bin2bcd (tm_mon newtm + 1);
    rtc_bin2bcd (tm_year newtm - 68) ].

(** The three messages of [up_rtc_settime]. *)
Definition settime_msg (buffer : list Z) : list i2c_msg_s :=
  let cmd := to_uint8 (PCF85263_RTC_SECONDS P) in
  [ mk_msg (CONFIG_PCF85263_I2C_FREQUENCY P) PCF85263_I2C_ADDRESS 0 buffer 9;
    mk_msg (CONFIG_PCF85263_I2C_FREQUENCY P) PCF85263_I2C_ADDRESS 0 [cmd] 1;
    mk_msg (CONFIG_PCF85263_I2C_FREQUENCY P) PCF85263_I2C_ADDRESS (I2C_M_READ P) [] 1 ].

(** [seconds] after a transfer of [settime_msg]. *)
Definition settime_seconds (rd : list (list Z)) : Z := byte_at (nth 0 rd []) 0.

(** [(buffer[2] & PCF85263_RTC_SECONDS_MASK) > (seconds & PCF85263_RTC_SECONDS_MASK)] *)
Definition settime_again (buffer : list Z) (rd : list (list Z)) : bool :=
  Z.land (byte_at buffer 2) (PCF85263_RTC_SECONDS_MASK P)
  >? Z.land (settime_seconds rd) (PCF85263_RTC_SECONDS_MASK P).

(** [int up_rtc_settime(FAR const struct timespec *tp)]: the returned status
    ([None] when the fuel ran out inside the loop) and the globals
    afterwards. *)
Definition up_rtc_settime (fuel : nat) (st : rtc_state bus) (tp : timespec)
  : option Z * rtc_state bus :=
  if negb (g_rtc_enabled st) then
    (Some (- EAGAIN P), st)
  else
    match settime_calendar (settime_newtime tp) with
    | None => (Some (- EINVAL P), st)
    | Some newtm =>
        let buffer := settime_buffer newtm in
        match transfer_do_while (settime_msg buffer) (settime_again buffer) fuel
                (i2c (g_pcf85263 st)) with
        | (None, dev') => (None, mk_state (g_rtc_enabled st) (mk_dev dev'))
        | (Some (TransferFailed ret), dev') =>
            (Some ret, mk_state (g_rtc_enabled st) (mk_dev dev'))
        | (Some (TransferDone _), dev') =>
            (Some OK, mk_state (g_rtc_enabled st) (mk_dev dev'))
        end
    end.

End Driver.

(** ** Observations on the recorded bus traffic *)

Section Observations.

Context (P : platform).

(** Masked seconds of one recorded [up_rtc_getdatetime] transfer, read
    off the bytes that came back on the bus: byte 0 of the first read (the
    7 registers) and byte 0 of the second read (the seconds alone). *)
Definition bulk_seconds (x : i2c_xfer) : Z :=
  Z.land (nth 0 (nth 0 (xfer_data x) []) 0 mod 256) (PCF85263_RTC_SECONDS_MASK P).

Definition reread_seconds (x : i2c_xfer) : Z :=
  Z.land (nth 0 (nth 1 (xfer_data x) []) 0 mod 256) (PCF85263_RTC_SECONDS_MASK P).

(** Masked seconds of one recorded [up_rtc_settime] transfer, read off the
    bus: byte 2 of the first message sent (the seconds of the image) and
    byte 0 of the only read (the seconds read back). *)
Definition written_seconds (x : i2c_xfer) : Z :=
  Z.land (nth 2 (buffer (nth 0 (xfer_msgs x) (mk_msg 0 0 0 [] 0))) 0 mod 256)
         (PCF85263_RTC_SECONDS_MASK P).

Definition readback_seconds (x : i2c_xfer) : Z :=
  Z.land (nth 0 (nth 0 (xfer_data x) []) 0 mod 256) (PCF85263_RTC_SECONDS_MASK P).

End Observations.

(** What a run of [transfer_do_while] leaves on a recording bus: every
    transfer but the last one was repeated (it succeeded and [again] held
    on its data), and the last one decides the result. *)
Definition repeated (again : list (list Z) -> bool) (x : i2c_xfer) : Prop :=
  0 <= xfer_ret x /\ again (xfer_data x) = true.

Definition loop_trace (again : list (list Z) -> bool) (fuel : nat)
    (res : option transfer_result) (new : list i2c_xfer) : Prop :=
  match res with
  | None => List.length new = fuel /\ Forall (repeated again) new
  | Some (TransferFailed ret) =>
      exists earlier last,
        new = earlier ++ [last] /\ Forall (repeated again) earlier /\
        xfer_ret last = ret /\ ret < 0
  | Some (TransferDone rd) =>
      exists earlier last,
        new = earlier ++ [last] /\ Forall (repeated again) earlier /\
        0 <= xfer_ret last /\ xfer_data last = rd /\ again rd = false
  end.

(** The status an operation returns for the way its loop ended. *)
Definition status_of (res : option transfer_result) : option Z :=
  match res with
  | None => None
  | Some (TransferFailed ret) => Some ret
  | Some (TransferDone _) => Some OK
  end.

(** An enabled session on a recording bus with nothing recorded yet. *)
Definition enabled_session {bus : Type} (dev : bus) : rtc_state (bus * list i2c_xfer) :=
  mk_state true (mk_dev (dev, [])).

(** The transfers recorded in a session. *)
Definition session_log {bus : Type} (st : rtc_state (bus * list i2c_xfer)) : list i2c_xfer :=
  snd (i2c (g_pcf85263 st)).

(** ** The specification's side of the time round trip *)

(** "Round the given time to the nearest whole second (carry to next second
    if the fractional part is >= 0.5s)". *)
Definition nearest_second (tp : timespec) : Z :=
  if tv_nsec tp >=? 500000000 then tv_sec tp + 1 else tv_sec tp.

(** Two broken-down times agree on the fields the driver handles;
    [tm_wday] counts only where it is a member of [struct tm]. *)
Definition tm_agree (wday : bool) (a b : tm) : Prop :=
  tm_sec a = tm_sec b /\ tm_min a = tm_min b /\ tm_hour a = tm_hour b /\
  tm_mday a = tm_mday b /\ tm_mon a = tm_mon b /\ tm_year a = tm_year b /\
  (wday = true -> tm_wday a = tm_wday b).

(** The calendar ranges of a broken-down time (the year apart);
    [tm_wday] counts only where it is a member of [struct tm]. *)
Definition tm_in_range (wday : bool) (t : tm) : Prop :=
  0 <= tm_sec t <= 59 /\ 0 <= tm_min t <= 59 /\ 0 <= tm_hour t <= 23 /\
  1 <= tm_mday t <= 31 /\ 0 <= tm_mon t <= 11 /\
  (wday = true -> 0 <= tm_wday t <= 6).

(** The write image as the specification words it: 9 bytes, byte 0 equal to
    0, followed in order by the BCD encodings of seconds, minutes, hours,
    day-of-month, day-of-week (0 when unavailable), month+1 and
    year-since-reference. *)
Definition write_image_as_specified (P : platform) (newtm : tm) (image : list Z) : Prop :=
  List.length image = 9%nat /\
  nth 0 image 0 = 0 /\
  firstn 7 (skipn 1 image) =
    [ rtc_bin2bcd (tm_sec newtm);
      rtc_bin2bcd (tm_min newtm);
      rtc_bin2bcd (tm_hour newtm);
      rtc_bin2bcd (tm_mday newtm);
      if wday_tracked P then rtc_bin2bcd (tm_wday newtm) else 0;
      rtc_bin2bcd (tm_mon newtm + 1);
      rtc_bin2bcd (tm_year newtm - 68) ].

(** ** Transports and a platform to run the driver on *)

(** A transport that plays back a script: every transfer takes the next
    [(status, bytes read)] entry; past the end of the script it fails. *)
Definition scripted_ops : i2c_ops (list (Z * list (list Z))) :=
  {| I2C_TRANSFER := fun script _ =>
       match script with
       | [] => (-5, [], [])
       | (ret, rd) :: script' => (ret, rd, script')
       end |}.

(** A register file behind the bus: a write message sets the register
    pointer from its first byte and stores the bytes that follow in
    consecutive registers; a read message returns consecutive registers
    from the pointer on.  Reads return exactly what was written. *)
Record regfile : Type := mk_regfile {
  regs : Z -> Z;
  regptr : Z
}.

Definition regs_write (r : Z -> Z) (a : Z) (data : list Z) : Z -> Z :=
  fun n =>
    if (a <=? n) && (n <? a + Z.of_nat (List.length data))
    then nth (Z.to_nat (n - a)) data 0
    else r n.

Definition regs_read (r : Z -> Z) (a : Z) (n : nat) : list Z :=
  map (fun k => r (a + Z.of_nat k)) (seq 0 n).

Definition echo_msg (m_read : Z) (acc : list (list Z) * regfile) (m : i2c_msg_s)
  : list (list Z) * regfile :=
  let '(rd, dev) := acc in
  if Z.land (flags m) m_read =? 0 then
    match buffer m with
    | [] => (rd, dev)
    | a :: data =>
        (rd, mk_regfile (regs_write (regs dev) a data)
                        (a + Z.of_nat (List.length data)))
    end
  else
    (rd ++ [regs_read (regs dev) (regptr dev) (Z.to_nat (I2C.length m))],
     mk_regfile (regs dev) (regptr dev + I2C.length m)).

Definition echo_ops (m_read : Z) : i2c_ops regfile :=
  {| I2C_TRANSFER := fun dev msgs =>
       let '(rd, dev') := fold_left (echo_msg m_read) msgs ([], dev) in
       (OK, rd, dev') |}.

(** Modelled from the spec: the calendar conversion of the C library
    ([gmtime_r]) is not part of the driver's source file.  "Convert to
    broken-down time using the calendar convention configured for the
    process": seconds since 00:00:00, 1 Jan 1970 (a Thursday) in the
    proleptic Gregorian calendar, month 0-based, year counted from 1900. *)
Definition utc_calendar (t : Z) : option tm :=
  let days := t / 86400 in
  let secs := t mod 86400 in
  let z := days + 719468 in
  let era := z / 146097 in
  let doe := z - era * 146097 in
  let yoe := (doe - doe / 1460 + doe / 36524 - doe / 146096) / 365 in
  let doy := doe - (365 * yoe + yoe / 4 - yoe / 100) in
  let mp := (5 * doy + 2) / 153 in
  let d := doy - (153 * mp + 2) / 5 + 1 in
  let m := if mp <? 10 then mp + 3 else mp - 9 in
  let y := yoe + era * 400 + (if m <=? 2 then 1 else 0) in
  Some {| tm_sec := secs mod 60;
          tm_min := (secs / 60) mod 60;
          tm_hour := secs / 3600;
          tm_mday := d;
          tm_mon := m - 1;
          tm_year := y - 1900;
          tm_wday := (days + 4) mod 7 |}.

(** The register map of the PCF85263 (seconds 7 bits, minutes 7 bits, hours
    6 bits, days 6 bits, weekdays 3 bits, months 5 bits, hundredths at
    register 0 and seconds at register 1), UTC calendar, weekday tracked,
    64-bit [time_t]. *)
Definition pcf85263_platform : platform :=
  {| CONFIG_PCF85263_I2C_FREQUENCY := 400000;
     CONFIG_LIBC_LOCALTIME := false;
     CONFIG_TIME_EXTENDED := true;
     I2C_M_READ := 1;
     EAGAIN := 11;
     EINVAL := 22;
     PCF85263_RTC_100TH_SECONDS := 0x00;
     PCF85263_RTC_SECONDS := 0x01;
     PCF85263_RTC_SECONDS_MASK := 0x7f;
     PCF85263_RTC_MINUTES_MASK := 0x7f;
     PCF85263_RTC_HOURS24_MASK := 0x3f;
     PCF85263_RTC_DAYS_MASK := 0x3f;
     PCF85263_RTC_WEEKDAYS_MASK := 0x07;
     PCF85263_RTC_MONTHS_MASK := 0x1f;
     to_time_t := fun x => x mod 2 ^ 64;
     localtime_r := utc_calendar;
     gmtime_r := utc_calendar |}.

(** A script for [up_rtc_getdatetime]: the first transfer reads
    23:59:59 on 31 Dec 1970 and then seconds 00 (the clock ticked during
    the read); the second reads 00:00:00 on 1 Jan 1971 and seconds 00. *)
Definition rollover_script : list (Z * list (list Z)) :=
  [ (0, [[0x59; 0x59; 0x23; 0x31; 0x04; 0x12; 0x02]; [0x00]]);
    (0, [[0x00; 0x00; 0x00; 0x01; 0x05; 0x01; 0x03]; [0x00]]) ].

(** A script on which the second transfer fails with -5 after a first
    transfer that has to be repeated. *)
Definition failing_script : list (Z * list (list Z)) :=
  [ (0, [[0x59; 0x59; 0x23; 0x31; 0x04; 0x12; 0x02]; [0x00]]);
    (-5, []) ].

(** A script for [up_rtc_settime] of a time with seconds 59: the first
    read-back returns seconds 00, the second seconds 59. *)
Definition readback_script : list (Z * list (list Z)) :=
  [ (0, [[0x00]]); (0, [[0x59]]) ].

(** A script whose weekday register reads 0x10. *)
Definition weekday_script : list (Z * list (list Z)) :=
  [ (0, [[0x00; 0x00; 0x00; 0x01; 0x10; 0x01; 0x02]; [0x00]]) ].

(** An empty register file. *)
Definition regfile_zero : regfile := mk_regfile (fun _ => 0) 0.

(** The platform of [pcf85263_platform] with calendar conversions that
    fail (return [NULL]) on every time. *)
Definition no_calendar_platform : platform :=
  {| CONFIG_PCF85263_I2C_FREQUENCY := 400000;
     CONFIG_LIBC_LOCALTIME := false;
     CONFIG_TIME_EXTENDED := true;
     I2C_M_READ := 1;
     EAGAIN := 11;
     EINVAL := 22;
     PCF85263_RTC_100TH_SECONDS := 0x00;
     PCF85263_RTC_SECONDS := 0x01;
     PCF85263_RTC_SECONDS_MASK := 0x7f;
     PCF85263_RTC_MINUTES_MASK := 0x7f;
     PCF85263_RTC_HOURS24_MASK := 0x3f;
     PCF85263_RTC_DAYS_MASK := 0x3f;
     PCF85263_RTC_WEEKDAYS_MASK := 0x07;
     PCF85263_RTC_MONTHS_MASK := 0x1f;
     to_time_t := fun x => x mod 2 ^ 64;
     localtime_r := fun _ => None;
     gmtime_r := fun _ => None |}.

(** A script on which every transfer succeeds with the seconds gone back. *)
Definition always_rollover_script : list (Z * list (list Z)) :=
  [ (0, [[0x59; 0; 0; 1; 4; 1; 2]; [0x00]]);
    (0, [[0x58; 0; 0; 1; 4; 1; 2]; [0x00]]);
    (0, [[0x57; 0; 0; 1; 4; 1; 2]; [0x00]]) ].

(** A script whose only transfer returns a positive status. *)
Definition positive_status_script : list (Z * list (list Z)) :=
  [ (7, [[0x30; 0x15; 0x08; 0x11; 0x05; 0x06; 0x48]; [0x30]]) ].

(** A mask keeps the low [n] bits. *)
Definition mask_keeps (n : Z) (mask : Z) : Prop :=
  Z.land (Z.ones n) mask = Z.ones n.

(** What the time round trip needs of the register map: every mask keeps
    the value bits of its field, the seconds register follows the
    hundredths register, and the read flag is a flag. *)
Definition register_map_ok (P : platform) : Prop :=
  mask_keeps 7 (PCF85263_RTC_SECONDS_MASK P) /\
  mask_keeps 7 (PCF85263_RTC_MINUTES_MASK P) /\
  mask_keeps 6 (PCF85263_RTC_HOURS24_MASK P) /\
  mask_keeps 6 (PCF85263_RTC_DAYS_MASK P) /\
  mask_keeps 3 (PCF85263_RTC_WEEKDAYS_MASK P) /\
  mask_keeps 5 (PCF85263_RTC_MONTHS_MASK P) /\
  to_uint8 (PCF85263_RTC_SECONDS P) = to_uint8 (PCF85263_RTC_100TH_SECONDS P) + 1 /\
  I2C_M_READ P <> 0.

(** An all-zero [*tp] to call [up_rtc_getdatetime] with. *)
Definition tm_zero : tm := mk_tm 0 0 0 0 0 0 0.

(** ** Facts about the codec *)

Lemma to_uint8_small (x : Z) : 0 <= x < 256 -> to_uint8 x = x.
Proof. intros H. unfold to_uint8. now apply Z.mod_small. Qed.

Lemma to_uint8_range (x : Z) : 0 <= to_uint8 x < 256.
Proof. unfold to_uint8. apply Z.mod_pos_bound. lia. Qed.

(** The loop leaves [value] alone when it is already below 10. *)
Lemma bin2bcd_loop_below (fuel : nat) (msbcd value : Z) :
  value < 10 -> bin2bcd_loop fuel msbcd value = (msbcd, value).
Proof.
  intros H. destruct fuel as [|fuel]; simpl; [reflexivity|].
  destruct (Z.geb_spec value 10); [lia|reflexivity].
Qed.

(** With enough iterations the loop counts the tens (modulo 256, in the
    [uint8_t] counter) and leaves the units. *)
Lemma bin2bcd_loop_spec (fuel : nat) :
  forall msbcd value,
    0 <= value -> value / 10 < Z.of_nat fuel -> 0 <= msbcd < 256 ->
    bin2bcd_loop fuel msbcd value = (to_uint8 (msbcd + value / 10), value mod 10).
Proof.
  induction fuel as [|fuel IH]; intros msbcd value Hv Hf Hm.
  - assert (0 <= value / 10) by (apply Z.div_pos; lia). lia.
  - simpl. destruct (Z.geb_spec value 10) as [Hge|Hlt].
    + assert (Hq : value / 10 = (value - 10) / 10 + 1).
      { replace value with ((value - 10) + 1 * 10) at 1 by lia.
        rewrite Z.div_add by lia. reflexivity. }
      assert (Hr : value mod 10 = (value - 10) mod 10).
      { replace value with ((value - 10) + 1 * 10) at 1 by lia.
        rewrite Z.mod_add by lia. reflexivity. }
      rewrite IH; [| lia | lia | apply to_uint8_range].
      rewrite Hr. f_equal. unfold to_uint8.
      rewrite Zplus_mod_idemp_l. f_equal. lia.
    + rewrite Z.div_small, Z.mod_small by lia.
      rewrite Z.add_0_r, to_uint8_small by lia. reflexivity.
Qed.

(** The loop of [rtc_bin2bcd] always runs to its exit test: with the
    [Z.to_nat value] iterations it is given, what is left is below 10. *)
Lemma bin2bcd_loop_exits (value : Z) :
  snd (bin2bcd_loop (Z.to_nat value) 0 value) < 10.
Proof.
  destruct (Z.lt_ge_cases value 10) as [Hlt|Hge].
  - rewrite bin2bcd_loop_below by assumption. assumption.
  - rewrite bin2bcd_loop_spec; simpl.
    + apply Z.mod_pos_bound. lia.
    + lia.
    + rewrite Z2Nat.id by lia. apply Z.div_lt; lia.
    + lia.
Qed.

(** Packing a tens digit and a units digit: the nibbles do not overlap. *)
Lemma lor_nibbles (hi lo : Z) :
  0 <= hi -> 0 <= lo < 16 -> Z.lor (Z.shiftl hi 4) lo = 16 * hi + lo.
Proof.
  intros Hhi Hlo.
  assert (Hdisj : Z.land (Z.shiftl hi 4) lo = 0).
  2: { rewrite <- Z.lxor_lor, <- Z.add_nocarry_lxor by assumption.
       rewrite Z.shiftl_mul_pow2 by lia. change (2 ^ 4) with 16. lia. }
  - apply Z.bits_inj'. intros n Hn.
    rewrite Z.land_spec, Z.bits_0.
    destruct (Z.lt_ge_cases n 4) as [Hlt|Hge].
    + rewrite Z.shiftl_spec_low by assumption. reflexivity.
    + replace (Z.testbit lo n) with false; [apply andb_false_r|].
      symmetry. destruct (Z.eq_dec lo 0) as [->|Hnz]; [apply Z.bits_0|].
      apply Z.bits_above_log2; [lia|].
      assert (Z.log2 lo < 4) by (apply Z.log2_lt_pow2; simpl; lia). lia.
Qed.

Lemma shiftr_nibbles (hi lo : Z) :
  0 <= lo < 16 -> Z.shiftr (16 * hi + lo) 4 = hi.
Proof.
  intros Hlo. rewrite Z.shiftr_div_pow2 by lia. change (2 ^ 4) with 16.
  symmetry. apply (Z.div_unique _ _ _ lo); lia.
Qed.

Lemma land_nibbles (hi lo : Z) :
  0 <= lo < 16 -> Z.land (16 * hi + lo) 0x0f = lo.
Proof.
  intros Hlo. change 0x0f with (Z.ones 4).
  rewrite Z.land_ones by lia. change (2 ^ 4) with 16.
  symmetry. apply (Z.mod_unique _ _ hi); lia.
Qed.

(** Every byte splits into its two nibbles. *)
Lemma byte_nibbles (b : Z) :
  b = 16 * Z.shiftr b 4 + Z.land b 0x0f.
Proof.
  rewrite Z.shiftr_div_pow2 by lia. change 0x0f with (Z.ones 4).
  rewrite Z.land_ones by lia. change (2 ^ 4) with 16.
  apply Z.div_mod. lia.
Qed.

(** [rtc_bin2bcd] on the values whose tens fit in one nibble. *)
Lemma rtc_bin2bcd_digits (v : Z) :
  0 <= v < 160 -> rtc_bin2bcd v = 16 * (v / 10) + v mod 10.
Proof.
  intros Hv. unfold rtc_bin2bcd.
  assert (Hq : 0 <= v / 10 < 16).
  { split; [apply Z.div_pos; lia|]. apply Z.div_lt_upper_bound; lia. }
  assert (Hr : 0 <= v mod 10 < 10) by (apply Z.mod_pos_bound; lia).
  destruct (Z.lt_ge_cases v 10) as [Hlt|Hge].
  - rewrite bin2bcd_loop_below by assumption.
    rewrite Z.div_small, Z.mod_small by lia.
    rewrite lor_nibbles by lia. apply to_uint8_small. lia.
  - rewrite bin2bcd_loop_spec; try lia.
    + simpl (0 + _). rewrite (to_uint8_small (v / 10)) by lia.
      rewrite lor_nibbles by lia. apply to_uint8_small. lia.
    + rewrite Z2Nat.id by lia. apply Z.div_lt; lia.
Qed.

(** [rtc_bcd2bin] on a byte given by its nibbles. *)
Lemma rtc_bcd2bin_digits (hi lo : Z) :
  0 <= hi < 16 -> 0 <= lo < 16 -> rtc_bcd2bin (16 * hi + lo) = 10 * hi + lo.
Proof.
  intros Hhi Hlo. unfold rtc_bcd2bin.
  rewrite to_uint8_small by lia.
  rewrite shiftr_nibbles, land_nibbles by assumption. lia.
Qed.

(** Decoding undoes encoding as long as the tens fit in the high nibble. *)
Lemma rtc_bcd2bin_bin2bcd (v : Z) :
  0 <= v < 160 -> rtc_bcd2bin (rtc_bin2bcd v) = v.
Proof.
  intros Hv. rewrite rtc_bin2bcd_digits by assumption.
  assert (0 <= v / 10 < 16).
  { split; [apply Z.div_pos; lia|]. apply Z.div_lt_upper_bound; lia. }
  assert (0 <= v mod 10 < 10) by (apply Z.mod_pos_bound; lia).
  rewrite rtc_bcd2bin_digits by lia.
  rewrite (Z.div_mod v 10) at 3 by lia. reflexivity.
Qed.

Lemma valid_bcd_digits (b : Z) :
  valid_bcd b ->
  0 <= Z.shiftr b 4 <= 9 /\ 0 <= Z.land b 0x0f <= 9.
Proof.
  intros (Hb & Hh & Hl). repeat split; try assumption.
  - apply Z.shiftr_nonneg. lia.
  - apply Z.land_nonneg. right. lia.
Qed.

Lemma rtc_bcd2bin_valid (b : Z) :
  valid_bcd b -> rtc_bcd2bin b = 10 * Z.shiftr b 4 + Z.land b 0x0f.
Proof.
  intros Hb. pose proof (valid_bcd_digits b Hb) as [Hh Hl].
  rewrite (byte_nibbles b) at 1. apply rtc_bcd2bin_digits; lia.
Qed.

Lemma rtc_bin2bcd_valid (v : Z) :
  0 <= v <= 99 -> valid_bcd (rtc_bin2bcd v).
Proof.
  intros Hv. rewrite rtc_bin2bcd_digits by lia.
  assert (0 <= v / 10 <= 9).
  { split; [apply Z.div_pos; lia|].
    assert (v / 10 < 10) by (apply Z.div_lt_upper_bound; lia). lia. }
  assert (0 <= v mod 10 < 10) by (apply Z.mod_pos_bound; lia).
  unfold valid_bcd.
  rewrite shiftr_nibbles, land_nibbles by lia. lia.
Qed.

Lemma rtc_bin2bcd_bcd2bin (b : Z) :
  valid_bcd b -> rtc_bin2bcd (rtc_bcd2bin b) = b.
Proof.
  intros Hb. pose proof (valid_bcd_digits b Hb) as [Hh Hl].
  rewrite rtc_bcd2bin_valid by assumption.
  rewrite rtc_bin2bcd_digits by lia.
  replace ((10 * Z.shiftr b 4 + Z.land b 15) / 10) with (Z.shiftr b 4)
    by (apply (Z.div_unique _ _ _ (Z.land b 15)); lia).
  replace ((10 * Z.shiftr b 4 + Z.land b 15) mod 10) with (Z.land b 15)
    by (apply (Z.mod_unique _ _ (Z.shiftr b 4)); lia).
  symmetry. apply byte_nibbles.
Qed.


(** ** The transfer loop on a recording bus *)

Section LoopTrace.

Context {bus : Type} (ops : i2c_ops bus).
Context (msg : list i2c_msg_s) (again : list (list Z) -> bool).

(** A run appends to the record one entry per transfer, each carrying the
    same messages, in the shape [loop_trace] describes. *)
Lemma transfer_do_while_trace (fuel : nat) :
  forall (dev : bus) (log0 : list i2c_xfer) res dev' log',
    transfer_do_while (logged ops) msg again fuel (dev, log0) = (res, (dev', log')) ->
    exists new,
      log' = log0 ++ new /\
      Forall (fun x => xfer_msgs x = msg) new /\
      (List.length new <= fuel)%nat /\
      loop_trace again fuel res new.
Proof.
  induction fuel as [|fuel IH]; intros dev log0 res dev' log' Hrun.
  - simpl in Hrun. inversion Hrun; subst. exists []. rewrite app_nil_r.
    repeat split; auto; constructor.
  - simpl in Hrun.
    destruct (I2C_TRANSFER ops dev msg) as [[ret rd] dev1] eqn:Hx.
    simpl in Hrun.
    destruct (Z.ltb_spec ret 0) as [Hneg|Hpos].
    + inversion Hrun; subst. exists [mk_xfer msg ret rd].
      repeat split; auto.
      * simpl. lia.
      * exists [], (mk_xfer msg ret rd). simpl. auto.
    + destruct (again rd) eqn:Hagain.
      * apply IH in Hrun. destruct Hrun as (new & Hlog & Hmsg & Hlen & Htr).
        exists (mk_xfer msg ret rd :: new). split; [|split; [|split]].
        -- rewrite Hlog, <- app_assoc. reflexivity.
        -- constructor; auto.
        -- simpl. lia.
        -- assert (Hrep : repeated again (mk_xfer msg ret rd)) by (split; auto).
           unfold loop_trace in *. destruct res as [[r|d]|].
           ++ destruct Htr as (earlier & last & -> & Hall & Hret & Hlt).
              exists (mk_xfer msg ret rd :: earlier), last. repeat split; auto.
           ++ destruct Htr as (earlier & last & -> & Hall & Hret & Hd & Hag).
              exists (mk_xfer msg ret rd :: earlier), last. repeat split; auto.
           ++ destruct Htr as [Hl Hall]. split; [simpl; lia | constructor; auto].
      * inversion Hrun; subst. exists [mk_xfer msg ret rd].
        repeat split; auto.
        -- simpl. lia.
        -- exists [], (mk_xfer msg ret rd). simpl. auto.
Qed.

(** Recording does not change what the driver sees of the bus. *)
Lemma transfer_do_while_logged (fuel : nat) :
  forall (dev : bus) (log0 : list i2c_xfer),
    fst (transfer_do_while (logged ops) msg again fuel (dev, log0))
      = fst (transfer_do_while ops msg again fuel dev) /\
    fst (snd (transfer_do_while (logged ops) msg again fuel (dev, log0)))
      = snd (transfer_do_while ops msg again fuel dev).
Proof.
  induction fuel as [|fuel IH]; intros dev log0; simpl; [auto|].
  destruct (I2C_TRANSFER ops dev msg) as [[ret rd] dev1]. simpl.
  destruct (ret <? 0); [auto|].
  destruct (again rd); [apply IH | auto].
Qed.

(** Fuel only bounds the loop: once a run has ended, more fuel gives the
    same run. *)
Lemma transfer_do_while_more_fuel (fuel : nat) :
  forall (dev : bus) (res : transfer_result) (extra : nat),
    fst (transfer_do_while ops msg again fuel dev) = Some res ->
    transfer_do_while ops msg again (fuel + extra) dev
      = transfer_do_while ops msg again fuel dev.
Proof.
  induction fuel as [|fuel IH]; intros dev res extra Hres; [discriminate|].
  simpl in *. destruct (I2C_TRANSFER ops dev msg) as [[ret rd] dev1].
  destruct (ret <? 0); [reflexivity|].
  destruct (again rd); [|reflexivity].
  eapply IH. eassumption.
Qed.

End LoopTrace.

(** Positions in a list that ends with a distinguished last element. *)
Lemma nth_error_snoc {A : Type} (l : list A) (a x : A) (k : nat) :
  nth_error (l ++ [a]) k = Some x ->
  (nth_error l k = Some x /\ (S k < List.length (l ++ [a]))%nat) \/
  (x = a /\ S k = List.length (l ++ [a])).
Proof.
  intros H. rewrite length_app. simpl.
  destruct (Nat.lt_ge_cases k (List.length l)) as [Hlt|Hge].
  - left. rewrite nth_error_app1 in H by assumption. split; [assumption|lia].
  - right. rewrite nth_error_app2 in H by assumption.
    destruct (k - List.length l)%nat as [|n] eqn:Hk; simpl in H.
    + inversion H. split; [reflexivity|lia].
    + destruct n; discriminate.
Qed.

Lemma Forall_nth_error {A : Type} (Q : A -> Prop) (l : list A) (k : nat) (x : A) :
  Forall Q l -> nth_error l k = Some x -> Q x.
Proof.
  intros Hall Hk. rewrite Forall_forall in Hall.
  apply Hall. eapply nth_error_In; eassumption.
Qed.

(** *** Reading a trace *)

Section TraceFacts.

Context (again : list (list Z) -> bool) (fuel : nat).
Context (res : option transfer_result) (new : list i2c_xfer).
Hypothesis Htrace : loop_trace again fuel res new.

(** A transfer that failed is the last one, and its status is the result. *)
Lemma loop_trace_failure (k : nat) (x : i2c_xfer) :
  nth_error new k = Some x -> xfer_ret x < 0 ->
  res = Some (TransferFailed (xfer_ret x)) /\ List.length new = S k.
Proof.
  intros Hk Hneg. unfold loop_trace in Htrace.
  assert (Hnot : ~ repeated again x) by (unfold repeated; lia).
  destruct res as [[ret|rd]|].
  - destruct Htrace as (earlier & last & -> & Hall & Hret & Hlt).
    apply nth_error_snoc in Hk. destruct Hk as [[Hk _]|[-> Hlen]].
    + exfalso. apply Hnot. eapply Forall_nth_error; eassumption.
    + subst ret. auto.
  - destruct Htrace as (earlier & last & -> & Hall & Hret & Hd & Hag).
    apply nth_error_snoc in Hk. destruct Hk as [[Hk _]|[-> Hlen]].
    + exfalso. apply Hnot. eapply Forall_nth_error; eassumption.
    + lia.
  - destruct Htrace as [_ Hall].
    exfalso. apply Hnot. eapply Forall_nth_error; eassumption.
Qed.

(** A transfer that is followed by another one was repeated. *)
Lemma loop_trace_followed (k : nat) (x : i2c_xfer) :
  nth_error new k = Some x -> (S k < List.length new)%nat -> repeated again x.
Proof.
  intros Hk Hlt. unfold loop_trace in Htrace.
  destruct res as [[ret|rd]|].
  - destruct Htrace as (earlier & last & -> & Hall & _).
    apply nth_error_snoc in Hk. destruct Hk as [[Hk _]|[_ Hlen]]; [|lia].
    eapply Forall_nth_error; eassumption.
  - destruct Htrace as (earlier & last & -> & Hall & _).
    apply nth_error_snoc in Hk. destruct Hk as [[Hk _]|[_ Hlen]]; [|lia].
    eapply Forall_nth_error; eassumption.
  - destruct Htrace as [_ Hall]. eapply Forall_nth_error; eassumption.
Qed.

(** A successful transfer on which [again] holds is followed by another
    one, unless the fuel ends there. *)
Lemma loop_trace_again (k : nat) (x : i2c_xfer) :
  nth_error new k = Some x -> 0 <= xfer_ret x -> again (xfer_data x) = true ->
  (S k < List.length new)%nat \/ (res = None /\ S k = fuel).
Proof.
  intros Hk Hret Hag. unfold loop_trace in Htrace.
  destruct res as [[ret|rd]|].
  - destruct Htrace as (earlier & last & -> & Hall & Hr & Hlt).
    apply nth_error_snoc in Hk. destruct Hk as [[_ Hk]|[-> Hlen]]; [auto|lia].
  - destruct Htrace as (earlier & last & -> & Hall & Hr & Hd & Hnag).
    apply nth_error_snoc in Hk. destruct Hk as [[_ Hk]|[-> Hlen]]; [auto|].
    congruence.
  - destruct Htrace as [Hlen _].
    assert (k < List.length new)%nat by (apply nth_error_Some; congruence).
    destruct (Nat.eq_dec (S k) fuel); [right; auto | left; lia].
Qed.

End TraceFacts.

(** ** The operations on a recording bus *)

Section EnabledRuns.

Context (P : platform) {bus : Type} (ops : i2c_ops bus).

(** [up_rtc_getdatetime] on an enabled session is its loop followed by the
    formatting of [*tp]. *)
Lemma getdatetime_enabled_run (fuel : nat) (dev : bus) (tp tp' : tm)
    (r : option Z) (st' : rtc_state (bus * list i2c_xfer)) :
  up_rtc_getdatetime P (logged ops) fuel (enabled_session dev) tp = (r, tp', st') ->
  exists res,
    r = status_of res /\
    tp' = match res with
          | Some (TransferDone rd) => getdatetime_format P (getdatetime_buffer rd) tp
          | _ => tp
          end /\
    (List.length (session_log st') <= fuel)%nat /\
    Forall (fun x => xfer_msgs x = getdatetime_msg P) (session_log st') /\
    loop_trace (getdatetime_again P) fuel res (session_log st').
Proof.
  unfold up_rtc_getdatetime, enabled_session, session_log. simpl.
  destruct (transfer_do_while (logged ops) (getdatetime_msg P) (getdatetime_again P)
              fuel (dev, [])) as [res [dev' log']] eqn:Hrun.
  apply transfer_do_while_trace in Hrun.
  destruct Hrun as (new & Hlog & Hmsg & Hlen & Htr). simpl in Hlog. subst log'.
  intros H. exists res.
  destruct res as [[ret|rd]|]; inversion H; subst; simpl; auto.
Qed.

(** [up_rtc_settime] on an enabled session, once the calendar conversion
    has succeeded, is its loop on the message built from the result. *)
Lemma settime_enabled_run (fuel : nat) (dev : bus) (tp : timespec) (newtm : tm)
    (r : option Z) (st' : rtc_state (bus * list i2c_xfer)) :
  settime_calendar P (settime_newtime P tp) = Some newtm ->
  up_rtc_settime P (logged ops) fuel (enabled_session dev) tp = (r, st') ->
  exists res,
    r = status_of res /\
    (List.length (session_log st') <= fuel)%nat /\
    Forall (fun x => xfer_msgs x = settime_msg P (settime_buffer P newtm))
           (session_log st') /\
    loop_trace (settime_again P (settime_buffer P newtm)) fuel res (session_log st').
Proof.
  intros Hcal. unfold up_rtc_settime, enabled_session, session_log. simpl.
  rewrite Hcal.
  destruct (transfer_do_while (logged ops) (settime_msg P (settime_buffer P newtm))
              (settime_again P (settime_buffer P newtm)) fuel (dev, []))
    as [res [dev' log']] eqn:Hrun.
  apply transfer_do_while_trace in Hrun.
  destruct Hrun as (new & Hlog & Hmsg & Hlen & Htr). simpl in Hlog. subst log'.
  intros H. exists res.
  destruct res as [[ret|rd]|]; inversion H; subst; simpl; auto.
Qed.

(** When the calendar conversion fails, [up_rtc_settime] makes no transfer. *)
Lemma settime_conversion_failure (fuel : nat) (st : rtc_state bus) (tp : timespec) :
  g_rtc_enabled st = true ->
  settime_calendar P (settime_newtime P tp) = None ->
  up_rtc_settime P ops fuel st tp = (Some (- EINVAL P), st).
Proof.
  intros Hen Hcal. unfold up_rtc_settime. rewrite Hen, Hcal. reflexivity.
Qed.

(** Recording changes neither the status nor the time returned. *)
Lemma getdatetime_logged (fuel : nat) (dev : bus) (log0 : list i2c_xfer) (tp : tm) :
  fst (up_rtc_getdatetime P (logged ops) fuel (mk_state true (mk_dev (dev, log0))) tp)
  = fst (up_rtc_getdatetime P ops fuel (mk_state true (mk_dev dev)) tp).
Proof.
  unfold up_rtc_getdatetime. simpl.
  destruct (transfer_do_while_logged ops (getdatetime_msg P) (getdatetime_again P)
              fuel dev log0) as [Hres _].
  destruct (transfer_do_while (logged ops) _ _ fuel (dev, log0)) as [res1 d1].
  destruct (transfer_do_while ops _ _ fuel dev) as [res2 d2].
  simpl in Hres. subst res2. destruct res1 as [[ret|rd]|]; reflexivity.
Qed.

Lemma settime_logged (fuel : nat) (dev : bus) (log0 : list i2c_xfer) (tp : timespec) :
  fst (up_rtc_settime P (logged ops) fuel (mk_state true (mk_dev (dev, log0))) tp)
  = fst (up_rtc_settime P ops fuel (mk_state true (mk_dev dev)) tp).
Proof.
  unfold up_rtc_settime. simpl.
  destruct (settime_calendar P (settime_newtime P tp)) as [newtm|]; [|reflexivity].
  destruct (transfer_do_while_logged ops (settime_msg P (settime_buffer P newtm))
              (settime_again P (settime_buffer P newtm)) fuel dev log0) as [Hres _].
  destruct (transfer_do_while (logged ops) _ _ fuel (dev, log0)) as [res1 d1].
  destruct (transfer_do_while ops _ _ fuel dev) as [res2 d2].
  simpl in Hres. subst res2. destruct res1 as [[ret|rd]|]; reflexivity.
Qed.

(** [pcf85263_rtc_initialize] stores the bus driver, enables the session
    and returns OK. *)
Lemma initialize_enables (dev : bus) (st : rtc_state bus) :
  pcf85263_rtc_initialize dev st = (OK, mk_state true (mk_dev dev)).
Proof. reflexivity. Qed.

(** The year register has no flag bits: the byte is decoded whole, which
    is what masking with 0xff before decoding gives. *)
Lemma getdatetime_year_unmasked (buffer : list Z) (tp : tm) :
  tm_year (getdatetime_format P buffer tp)
  = rtc_bcd2bin (Z.land (byte_at buffer 6) 0xff) + 68.
Proof.
  unfold getdatetime_format. simpl. f_equal. f_equal.
  change 0xff with (Z.ones 8). rewrite Z.land_ones by lia.
  symmetry. apply Z.mod_small. apply to_uint8_range.
Qed.

(** The loop conditions, read on a recorded transfer. *)
Lemma getdatetime_again_spec (x : i2c_xfer) :
  getdatetime_again P (xfer_data x) = true <-> reread_seconds P x < bulk_seconds P x.
Proof.
  unfold getdatetime_again, reread_seconds, bulk_seconds.
  unfold getdatetime_seconds, getdatetime_buffer, byte_at, to_uint8.
  rewrite Z.gtb_ltb. apply Z.ltb_lt.
Qed.

Lemma settime_again_spec (newtm : tm) (x : i2c_xfer) :
  xfer_msgs x = settime_msg P (settime_buffer P newtm) ->
  settime_again P (settime_buffer P newtm) (xfer_data x) = true
  <-> readback_seconds P x < written_seconds P x.
Proof.
  intros Hm. unfold settime_again, readback_seconds, written_seconds.
  rewrite Hm. unfold settime_seconds, byte_at, to_uint8, settime_msg.
  cbn [nth buffer].
  rewrite Z.gtb_ltb. apply Z.ltb_lt.
Qed.

End EnabledRuns.

(** ** The register file behind the bus *)

Lemma regs_write_nil (r : Z -> Z) (a n : Z) : regs_write r a [] n = r n.
Proof.
  unfold regs_write. simpl.
  destruct (Z.leb_spec a n); destruct (Z.ltb_spec n (a + 0));
    simpl; try reflexivity; lia.
Qed.

Lemma regs_write_at (r : Z -> Z) (a : Z) (data : list Z) (k : nat) :
  (k < List.length data)%nat ->
  regs_write r a data (a + Z.of_nat k) = nth k data 0.
Proof.
  intros Hk. unfold regs_write.
  destruct (Z.leb_spec a (a + Z.of_nat k)); [|lia].
  destruct (Z.ltb_spec (a + Z.of_nat k) (a + Z.of_nat (List.length data))); [|lia].
  simpl. f_equal. lia.
Qed.

Lemma regs_read_ext (r1 r2 : Z -> Z) (p : Z) (n : nat) :
  (forall k, r1 k = r2 k) -> regs_read r1 p n = regs_read r2 p n.
Proof.
  intros H. unfold regs_read. apply map_ext. intros k. apply H.
Qed.

Lemma regs_read_S (r : Z -> Z) (p : Z) (n : nat) :
  regs_read r p (S n) = r p :: regs_read r (p + 1) n.
Proof.
  unfold regs_read. simpl. rewrite Z.add_0_r. f_equal.
  rewrite <- seq_shift, map_map. apply map_ext. intros k. f_equal. lia.
Qed.

Lemma skipn_nth_cons (data : list Z) :
  forall off, (off < List.length data)%nat ->
    skipn off data = nth off data 0 :: skipn (S off) data.
Proof.
  induction data as [|d data IH]; intros off Hoff; simpl in Hoff; [lia|].
  destruct off as [|off]; [reflexivity|].
  simpl. apply IH. lia.
Qed.

(** Reading back registers that were just written returns the bytes
    written. *)
Lemma regs_read_written (r : Z -> Z) (a : Z) (data : list Z) (n : nat) :
  forall off, (off + n <= List.length data)%nat ->
    regs_read (regs_write r a data) (a + Z.of_nat off) n = firstn n (skipn off data).
Proof.
  induction n as [|n IH]; intros off Hoff; [reflexivity|].
  rewrite regs_read_S, regs_write_at by lia.
  replace (a + Z.of_nat off + 1) with (a + Z.of_nat (S off)) by lia.
  rewrite IH by lia.
  rewrite (skipn_nth_cons data off) by lia. reflexivity.
Qed.

Lemma echo_msg_write (m_read : Z) (rd : list (list Z)) (dev : regfile)
    (f a a0 len : Z) (data : list Z) :
  echo_msg m_read (rd, dev) (mk_msg f a 0 (a0 :: data) len) =
    (rd, mk_regfile (regs_write (regs dev) a0 data)
                    (a0 + Z.of_nat (List.length data))).
Proof. reflexivity. Qed.

Lemma echo_msg_read (m_read : Z) (rd : list (list Z)) (dev : regfile)
    (f a len : Z) (buf : list Z) :
  m_read <> 0 ->
  echo_msg m_read (rd, dev) (mk_msg f a m_read buf len) =
    (rd ++ [regs_read (regs dev) (regptr dev) (Z.to_nat len)],
     mk_regfile (regs dev) (regptr dev + len)).
Proof.
  intros Hm. unfold echo_msg. cbn [flags]. rewrite Z.land_diag.
  destruct (Z.eqb_spec m_read 0); [contradiction|reflexivity].
Qed.

(** One [up_rtc_getdatetime] transfer on the register file: both reads
    return the registers from the seconds register on. *)
Lemma echo_getdatetime_transfer (P : platform) (dev : regfile) :
  I2C_M_READ P <> 0 ->
  exists dev',
    I2C_TRANSFER (echo_ops (I2C_M_READ P)) dev (getdatetime_msg P) =
      (OK, [regs_read (regs dev) (to_uint8 (PCF85263_RTC_SECONDS P)) 7;
            regs_read (regs dev) (to_uint8 (PCF85263_RTC_SECONDS P)) 1], dev').
Proof.
  intros Hm. unfold getdatetime_msg.
  cbn [I2C_TRANSFER echo_ops fold_left].
  rewrite echo_msg_write, echo_msg_read by assumption.
  rewrite echo_msg_write, echo_msg_read by assumption.
  cbn [regs regptr List.length Z.of_nat app]. rewrite !Z.add_0_r.
  eexists. f_equal. f_equal.
  change (Z.to_nat 7) with 7%nat. change (Z.to_nat 1) with 1%nat.
  f_equal; [|f_equal]; apply regs_read_ext; intros k;
    rewrite ?regs_write_nil; reflexivity.
Qed.

(** One [up_rtc_settime] transfer on the register file: the read-back
    returns the seconds byte of the image, and the eight bytes after the
    address byte are in the registers from the hundredths register on. *)
Lemma echo_settime_transfer (P : platform) (dev : regfile) (a : Z) (data : list Z) :
  I2C_M_READ P <> 0 ->
  to_uint8 (PCF85263_RTC_SECONDS P) = a + 1 ->
  (2 <= List.length data)%nat ->
  exists dev',
    I2C_TRANSFER (echo_ops (I2C_M_READ P)) dev (settime_msg P (a :: data)) =
      (OK, [[nth 1 data 0]], dev') /\
    forall n, regs dev' n = regs_write (regs dev) a data n.
Proof.
  intros Hm Hs Hlen. unfold settime_msg.
  cbn [I2C_TRANSFER echo_ops fold_left].
  rewrite !echo_msg_write, echo_msg_read by assumption.
  cbn [regs regptr List.length Z.of_nat app]. rewrite !Z.add_0_r.
  eexists. split.
  - f_equal. f_equal. change (Z.to_nat 1) with 1%nat.
    rewrite (regs_read_ext _ (regs_write (regs dev) a data))
      by (intros k; apply regs_write_nil).
    rewrite Hs. change 1 with (Z.of_nat 1).
    rewrite regs_read_written by lia.
    rewrite (skipn_nth_cons data 1) by lia. reflexivity.
  - intros n. cbn [regs]. apply regs_write_nil.
Qed.

(** ** Masks and encoded fields *)

Lemma rtc_bin2bcd_range (v : Z) : 0 <= rtc_bin2bcd v < 256.
Proof.
  unfold rtc_bin2bcd. destruct (bin2bcd_loop (Z.to_nat v) 0 v).
  apply to_uint8_range.
Qed.

Lemma byte_at_bin2bcd (v : Z) (l : list Z) : byte_at (rtc_bin2bcd v :: l) 0 = rtc_bin2bcd v.
Proof. unfold byte_at. simpl. apply to_uint8_small, rtc_bin2bcd_range. Qed.

(** The encoding of a value up to [hi] has its tens bounded by those of
    [hi]. *)
Lemma rtc_bin2bcd_bound (v hi : Z) :
  0 <= v <= hi -> hi < 160 -> 0 <= rtc_bin2bcd v <= 16 * (hi / 10) + 9.
Proof.
  intros Hv Hhi. rewrite rtc_bin2bcd_digits by lia.
  assert (0 <= v / 10) by (apply Z.div_pos; lia).
  assert (v / 10 <= hi / 10) by (apply Z.div_le_mono; lia).
  assert (0 <= v mod 10 < 10) by (apply Z.mod_pos_bound; lia).
  lia.
Qed.

(** A mask that keeps the low [n] bits leaves a value of [n] bits alone. *)
Lemma land_mask_keeps (n mask x : Z) :
  0 <= n -> mask_keeps n mask -> 0 <= x < 2 ^ n -> Z.land x mask = x.
Proof.
  intros Hn Hmask Hx. unfold mask_keeps in Hmask.
  assert (Hones : Z.land x (Z.ones n) = x).
  { rewrite Z.land_ones by assumption. apply Z.mod_small. assumption. }
  rewrite <- Hones at 1. rewrite <- Z.land_assoc, Hmask. exact Hones.
Qed.

(** A field written by [up_rtc_settime] and read by [up_rtc_getdatetime]
    through a mask that keeps its bits. *)
Lemma masked_field_roundtrip (n mask v hi : Z) :
  0 <= n -> mask_keeps n mask ->
  0 <= v <= hi -> hi < 160 -> 16 * (hi / 10) + 9 < 2 ^ n ->
  rtc_bcd2bin (Z.land (rtc_bin2bcd v) mask) = v.
Proof.
  intros Hn Hmask Hv Hhi Hfit.
  pose proof (rtc_bin2bcd_bound v hi Hv Hhi).
  rewrite (land_mask_keeps n) by (auto; lia).
  apply rtc_bcd2bin_bin2bcd. lia.
Qed.

Lemma gtb_same (x : Z) : (x >? x) = false.
Proof. rewrite Z.gtb_ltb. apply Z.ltb_irrefl. Qed.

Lemma settime_newtime_nearest (P : platform) (tp : timespec) :
  to_time_t P (tv_sec tp) = tv_sec tp ->
  to_time_t P (nearest_second tp) = nearest_second tp ->
  settime_newtime P tp = nearest_second tp.
Proof.
  unfold settime_newtime, nearest_second. intros H1. rewrite H1.
  destruct (tv_nsec tp >=? 500000000); intros H2; [assumption|reflexivity].
Qed.

(** ** The claims *)

(** C1.  For every integer [v] in [0,99], decoding the BCD byte produced by
    encoding [v] returns [v]: [rtc_bcd2bin (rtc_bin2bcd v) = v]. *)
Theorem bcd_encode_decode (v : Z) :
  0 <= v <= 99 -> rtc_bcd2bin (rtc_bin2bcd v) = v.
Proof.
  intros Hv. apply rtc_bcd2bin_bin2bcd. lia.
Qed.

Lemma bcd_encode_decode_witness :
  0 <= 59 <= 99 /\ rtc_bcd2bin (rtc_bin2bcd 59) = 59.
Proof.
  split; [lia | apply (bcd_encode_decode 59); lia].
Defined.

(** C10.  For every valid packed-BCD byte [b] (both nibbles at most 9),
    [rtc_bcd2bin b] lies in [0,99] and [rtc_bin2bcd (rtc_bcd2bin b) = b];
    for every [v] in [0,99], [rtc_bin2bcd v] is a valid packed-BCD byte and
    [rtc_bcd2bin (rtc_bin2bcd v) = v].  The two functions are mutually
    inverse bijections between [0,99] and the valid packed-BCD bytes. *)
Theorem bcd_bijection :
  (forall b, valid_bcd b ->
     0 <= rtc_bcd2bin b <= 99 /\ rtc_bin2bcd (rtc_bcd2bin b) = b) /\
  (forall v, 0 <= v <= 99 ->
     valid_bcd (rtc_bin2bcd v) /\ rtc_bcd2bin (rtc_bin2bcd v) = v).
Proof.
  split.
  - intros b Hb. split; [|apply rtc_bin2bcd_bcd2bin; assumption].
    pose proof (valid_bcd_digits b Hb) as [Hh Hl].
    rewrite rtc_bcd2bin_valid by assumption. lia.
  - intros v Hv. split; [apply rtc_bin2bcd_valid; assumption|].
    apply rtc_bcd2bin_bin2bcd. lia.
Qed.

Lemma bcd_bijection_witness :
  (valid_bcd 0x59 /\ 0 <= rtc_bcd2bin 0x59 <= 99 /\ rtc_bin2bcd (rtc_bcd2bin 0x59) = 0x59) /\
  (0 <= 23 <= 99 /\ valid_bcd (rtc_bin2bcd 23) /\ rtc_bcd2bin (rtc_bin2bcd 23) = 23).
Proof.
  assert (Hb : valid_bcd 0x59).
  { unfold valid_bcd. change (Z.shiftr 0x59 4) with 5.
    change (Z.land 0x59 0x0f) with 9. lia. }
  assert (Hv : 0 <= 23 <= 99) by lia.
  split.
  - split; [exact Hb | exact (proj1 bcd_bijection 0x59 Hb)].
  - split; [exact Hv | exact (proj2 bcd_bijection 23 Hv)].
Defined.

(** C2.  In [up_rtc_getdatetime] with the session enabled, the four-message
    transfer (seconds register address written, 7 registers read, seconds
    register address written again, seconds register read alone) is
    repeated whenever the masked seconds of the seconds-only read is
    smaller than the masked seconds of the 7-register read, and only then:
    every recorded transfer is these four messages; a successful transfer
    whose second sample is smaller is followed by another transfer (as
    long as the loop is given fuel to go on); a transfer that is followed
    by another one succeeded with a smaller second sample; and when the
    operation returns OK, the time it returns is decoded from the 7
    registers of the last transfer, whose second sample is not smaller
    than its first.  The samples [bulk_seconds] and [reread_seconds] are
    read off the recorded bytes. *)
Theorem getdatetime_repeats_on_rollover
    (P : platform) (bus : Type) (ops : i2c_ops bus) (fuel : nat) (dev : bus)
    (tp tp' : tm) (r : option Z) (st' : rtc_state (bus * list i2c_xfer)) :
  up_rtc_getdatetime P (logged ops) fuel (enabled_session dev) tp = (r, tp', st') ->
  Forall (fun x =>
            xfer_msgs x =
              [ mk_msg (CONFIG_PCF85263_I2C_FREQUENCY P) 0x51 0
                       [PCF85263_RTC_SECONDS P mod 256] 1;
                mk_msg (CONFIG_PCF85263_I2C_FREQUENCY P) 0x51 (I2C_M_READ P) [] 7;
                mk_msg (CONFIG_PCF85263_I2C_FREQUENCY P) 0x51 0
                       [PCF85263_RTC_SECONDS P mod 256] 1;
                mk_msg (CONFIG_PCF85263_I2C_FREQUENCY P) 0x51 (I2C_M_READ P) [] 1 ])
         (session_log st') /\
  (forall k x, nth_error (session_log st') k = Some x ->
     0 <= xfer_ret x -> reread_seconds P x < bulk_seconds P x ->
     (S k < List.length (session_log st'))%nat \/ (r = None /\ S k = fuel)) /\
  (forall k x, nth_error (session_log st') k = Some x ->
     (S k < List.length (session_log st'))%nat ->
     0 <= xfer_ret x /\ reread_seconds P x < bulk_seconds P x) /\
  (r = Some OK ->
     exists earlier last,
       session_log st' = earlier ++ [last] /\
       0 <= xfer_ret last /\
       bulk_seconds P last <= reread_seconds P last /\
       let buffer := nth 0 (xfer_data last) [] in
       tp' =
         {| tm_sec := rtc_bcd2bin (Z.land (nth 0 buffer 0 mod 256)
                                          (PCF85263_RTC_SECONDS_MASK P));
            tm_min := rtc_bcd2bin (Z.land (nth 1 buffer 0 mod 256)
                                          (PCF85263_RTC_MINUTES_MASK P));
            tm_hour := rtc_bcd2bin (Z.land (nth 2 buffer 0 mod 256)
                                           (PCF85263_RTC_HOURS24_MASK P));
            tm_mday := rtc_bcd2bin (Z.land (nth 3 buffer 0 mod 256)
                                           (PCF85263_RTC_DAYS_MASK P));
            tm_wday :=
              if CONFIG_LIBC_LOCALTIME P || CONFIG_TIME_EXTENDED P
              then Z.land (rtc_bcd2bin (nth 4 buffer 0 mod 256))
                          (PCF85263_RTC_WEEKDAYS_MASK P)
              else tm_wday tp;
            tm_mon := rtc_bcd2bin (Z.land (nth 5 buffer 0 mod 256)
                                          (PCF85263_RTC_MONTHS_MASK P)) - 1;
            tm_year := rtc_bcd2bin (nth 6 buffer 0 mod 256) + 68 |}).
Proof.
  intros Hrun. apply getdatetime_enabled_run in Hrun.
  destruct Hrun as (res & Hr & Htp & Hlen & Hmsg & Htr).
  split; [exact Hmsg|]. split; [|split].
  - intros k x Hk Hret Hroll.
    destruct (loop_trace_again _ _ _ _ Htr k x Hk Hret) as [Hnext|[Hnone Hfuel]].
    + apply getdatetime_again_spec. assumption.
    + left. assumption.
    + right. subst res. auto.
  - intros k x Hk Hnext.
    destruct (loop_trace_followed _ _ _ _ Htr k x Hk Hnext) as [Hret Hag].
    split; [assumption|]. apply getdatetime_again_spec. assumption.
  - intros HOK. subst r. destruct res as [[ret|rd]|]; simpl in HOK.
    + exfalso. simpl in Htr. destruct Htr as (_ & _ & _ & _ & _ & Hlt).
      inversion HOK. unfold OK in *. lia.
    + simpl in Htr. destruct Htr as (earlier & last & Hlog & _ & Hret & Hd & Hag).
      exists earlier, last. repeat split; try assumption.
      * subst rd.
        destruct (Z.lt_ge_cases (reread_seconds P last) (bulk_seconds P last))
          as [Hlt|Hge]; [|lia].
        apply getdatetime_again_spec in Hlt. congruence.
      * subst rd. exact Htp.
    + discriminate.
Qed.

Lemma getdatetime_repeats_on_rollover_witness :
  let run := up_rtc_getdatetime pcf85263_platform (logged scripted_ops) 4
               (enabled_session rollover_script) tm_zero in
  fst (fst run) = Some OK /\
  (1 < List.length (session_log (snd run)))%nat /\
  Forall (fun x =>
            xfer_msgs x =
              [ mk_msg 400000 0x51 0 [1] 1; mk_msg 400000 0x51 1 [] 7;
                mk_msg 400000 0x51 0 [1] 1; mk_msg 400000 0x51 1 [] 1 ])
         (session_log (snd run)) /\
  snd (fst run) = mk_tm 0 0 0 1 0 71 5.
Proof.
  pose proof (getdatetime_repeats_on_rollover pcf85263_platform _ scripted_ops 4
                rollover_script tm_zero _ _ _ eq_refl) as (Hmsg & Hroll & _ & _).
  split; [reflexivity|]. split; [|split; [exact Hmsg | reflexivity]].
  destruct (Hroll 0%nat _ eq_refl) as [Hnext|[Hnone _]].
  - vm_compute. discriminate.
  - vm_compute. reflexivity.
  - exact Hnext.
  - discriminate Hnone.
Defined.

(** C4.  On an enabled session, a transfer that returns a negative status
    ends the operation at once: the operation returns that very status, the
    failed transfer is the last one on the bus (it is not repeated), and
    [up_rtc_getdatetime] leaves [*tp] as it was. *)
Theorem transfer_error_is_returned
    (P : platform) (bus : Type) (ops : i2c_ops bus) (fuel : nat) (dev : bus) :
  (forall (tp tp' : tm) (r : option Z) (st' : rtc_state (bus * list i2c_xfer))
          (k : nat) (x : i2c_xfer),
     up_rtc_getdatetime P (logged ops) fuel (enabled_session dev) tp = (r, tp', st') ->
     nth_error (session_log st') k = Some x -> xfer_ret x < 0 ->
     r = Some (xfer_ret x) /\ List.length (session_log st') = S k /\ tp' = tp) /\
  (forall (tp : timespec) (r : option Z) (st' : rtc_state (bus * list i2c_xfer))
          (k : nat) (x : i2c_xfer),
     up_rtc_settime P (logged ops) fuel (enabled_session dev) tp = (r, st') ->
     nth_error (session_log st') k = Some x -> xfer_ret x < 0 ->
     r = Some (xfer_ret x) /\ List.length (session_log st') = S k).
Proof.
  split.
  - intros tp tp' r st' k x Hrun Hk Hneg.
    apply getdatetime_enabled_run in Hrun.
    destruct Hrun as (res & Hr & Htp & _ & _ & Htr).
    destruct (loop_trace_failure _ _ _ _ Htr k x Hk Hneg) as [Hres Hlen].
    subst res. simpl in Hr, Htp. auto.
  - intros tp r st' k x Hrun Hk Hneg.
    destruct (settime_calendar P (settime_newtime P tp)) as [newtm|] eqn:Hcal.
    + apply (settime_enabled_run P ops fuel dev tp newtm) in Hrun; [|assumption].
      destruct Hrun as (res & Hr & _ & _ & Htr).
      destruct (loop_trace_failure _ _ _ _ Htr k x Hk Hneg) as [Hres Hlen].
      subst res. simpl in Hr. auto.
    + unfold up_rtc_settime, enabled_session in Hrun. simpl in Hrun.
      rewrite Hcal in Hrun. inversion Hrun; subst.
      unfold session_log in Hk. simpl in Hk. destruct k; discriminate.
Qed.

Lemma transfer_error_is_returned_witness :
  (let run := up_rtc_getdatetime pcf85263_platform (logged scripted_ops) 4
                (enabled_session failing_script) tm_zero in
   fst (fst run) = Some (-5) /\
   List.length (session_log (snd run)) = 2%nat /\
   snd (fst run) = tm_zero) /\
  (let run := up_rtc_settime pcf85263_platform (logged scripted_ops) 4
                (enabled_session [(-5, [])]) (mk_timespec 59 0) in
   fst run = Some (-5) /\ List.length (session_log (snd run)) = 1%nat).
Proof.
  pose proof (transfer_error_is_returned pcf85263_platform _ scripted_ops 4
                failing_script) as [Hget _].
  pose proof (transfer_error_is_returned pcf85263_platform _ scripted_ops 4
                [(-5, [])]) as [_ Hset].
  split.
  - refine (Hget tm_zero _ _ _ 1%nat _ eq_refl eq_refl _).
    vm_compute. reflexivity.
  - refine (Hset (mk_timespec 59 0) _ _ 0%nat _ eq_refl eq_refl _).
    vm_compute. reflexivity.
Defined.

(** C5.  When [up_rtc_getdatetime] is called while the session is not
    enabled, it makes no transfer (the bus and its record are left as they
    were), fills [*tp] with the epoch (seconds 0, minutes 0, hours 0,
    day-of-month 1, month 0, year 70, and weekday 4 where the weekday is
    tracked) and returns [-EAGAIN]. *)
Theorem getdatetime_not_enabled
    (P : platform) (bus : Type) (ops : i2c_ops bus) (fuel : nat)
    (st : rtc_state (bus * list i2c_xfer)) (tp : tm) :
  g_rtc_enabled st = false ->
  up_rtc_getdatetime P (logged ops) fuel st tp =
    (Some (- EAGAIN P),
     {| tm_sec := 0; tm_min := 0; tm_hour := 0; tm_mday := 1; tm_mon := 0;
        tm_year := 70;
        tm_wday := if CONFIG_LIBC_LOCALTIME P || CONFIG_TIME_EXTENDED P
                   then 4 else tm_wday tp |},
     st).
Proof.
  intros Hen. unfold up_rtc_getdatetime. rewrite Hen. reflexivity.
Qed.

Lemma getdatetime_not_enabled_witness :
  up_rtc_getdatetime pcf85263_platform (logged scripted_ops) 4
    (mk_state false (mk_dev (rollover_script, []))) tm_zero =
  (Some (-11), mk_tm 0 0 0 1 0 70 4, mk_state false (mk_dev (rollover_script, []))).
Proof.
  exact (getdatetime_not_enabled pcf85263_platform _ scripted_ops 4
           (mk_state false (mk_dev (rollover_script, []))) tm_zero eq_refl).
Defined.

(** C6.  When [up_rtc_settime] is called while the session is not enabled,
    it returns [-EAGAIN] and changes nothing: no transfer is made (the bus
    and its record are left as they were) and the globals keep their
    values. *)
Theorem settime_not_enabled
    (P : platform) (bus : Type) (ops : i2c_ops bus) (fuel : nat)
    (st : rtc_state (bus * list i2c_xfer)) (tp : timespec) :
  g_rtc_enabled st = false ->
  up_rtc_settime P (logged ops) fuel st tp = (Some (- EAGAIN P), st).
Proof.
  intros Hen. unfold up_rtc_settime. rewrite Hen. reflexivity.
Qed.

Lemma settime_not_enabled_witness :
  up_rtc_settime pcf85263_platform (logged scripted_ops) 4
    (mk_state false (mk_dev (readback_script, []))) (mk_timespec 59 0) =
  (Some (-11), mk_state false (mk_dev (readback_script, []))).
Proof.
  exact (settime_not_enabled pcf85263_platform _ scripted_ops 4
           (mk_state false (mk_dev (readback_script, []))) (mk_timespec 59 0) eq_refl).
Defined.

(** C7.  In [up_rtc_settime] with the session enabled (and the calendar
    conversion successful), the transfer (the 9-byte image written from
    the hundredths register on, then the seconds register address written
    and the seconds register read back) is repeated exactly when the
    masked seconds written are greater than the masked seconds read back:
    every recorded transfer is these three messages; a successful transfer
    with written seconds greater than the read-back is followed by another
    one (as long as the loop is given fuel to go on); a transfer that is
    followed by another one succeeded with written seconds greater than
    the read-back; and the operation returns OK exactly when the last
    transfer succeeded with written seconds not greater than the
    read-back.  The samples [written_seconds] and [readback_seconds] are
    read off the recorded bytes. *)
Theorem settime_repeats_on_rollover
    (P : platform) (bus : Type) (ops : i2c_ops bus) (fuel : nat) (dev : bus)
    (tp : timespec) (newtm : tm) (r : option Z)
    (st' : rtc_state (bus * list i2c_xfer)) :
  settime_calendar P (settime_newtime P tp) = Some newtm ->
  up_rtc_settime P (logged ops) fuel (enabled_session dev) tp = (r, st') ->
  Forall (fun x =>
            xfer_msgs x =
              [ mk_msg (CONFIG_PCF85263_I2C_FREQUENCY P) 0x51 0
                       [ PCF85263_RTC_100TH_SECONDS P mod 256;
                         0;
                         rtc_bin2bcd (tm_sec newtm);
                         rtc_bin2bcd (tm_min newtm);
                         rtc_bin2bcd (tm_hour newtm);
                         rtc_bin2bcd (tm_mday newtm);
                         if CONFIG_LIBC_LOCALTIME P || CONFIG_TIME_EXTENDED P
                         then rtc_bin2bcd (tm_wday newtm) else 0;
                         rtc_bin2bcd (tm_mon newtm + 1);
                         rtc_bin2bcd (tm_year newtm - 68) ]
                       9;
                mk_msg (CONFIG_PCF85263_I2C_FREQUENCY P) 0x51 0
                       [PCF85263_RTC_SECONDS P mod 256] 1;
                mk_msg (CONFIG_PCF85263_I2C_FREQUENCY P) 0x51 (I2C_M_READ P) [] 1 ])
         (session_log st') /\
  (forall k x, nth_error (session_log st') k = Some x ->
     0 <= xfer_ret x -> readback_seconds P x < written_seconds P x ->
     (S k < List.length (session_log st'))%nat \/ (r = None /\ S k = fuel)) /\
  (forall k x, nth_error (session_log st') k = Some x ->
     (S k < List.length (session_log st'))%nat ->
     0 <= xfer_ret x /\ readback_seconds P x < written_seconds P x) /\
  (r = Some OK <->
     exists earlier last,
       session_log st' = earlier ++ [last] /\
       0 <= xfer_ret last /\
       written_seconds P last <= readback_seconds P last).
Proof.
  intros Hcal Hrun.
  apply (settime_enabled_run P ops fuel dev tp newtm) in Hrun; [|assumption].
  destruct Hrun as (res & Hr & Hlen & Hmsg & Htr).
  assert (Hspec : forall k x, nth_error (session_log st') k = Some x ->
            (settime_again P (settime_buffer P newtm) (xfer_data x) = true
             <-> readback_seconds P x < written_seconds P x)).
  { intros k x Hk. apply settime_again_spec.
    apply (Forall_nth_error _ _ k x Hmsg Hk). }
  split; [exact Hmsg|]. split; [|split].
  - intros k x Hk Hret Hroll.
    destruct (loop_trace_again _ _ _ _ Htr k x Hk Hret) as [Hnext|[Hnone Hfuel]].
    + apply (Hspec k x Hk). assumption.
    + left. assumption.
    + right. subst res. auto.
  - intros k x Hk Hnext.
    destruct (loop_trace_followed _ _ _ _ Htr k x Hk Hnext) as [Hret Hag].
    split; [assumption|]. apply (Hspec k x Hk). assumption.
  - split.
    + intros HOK. subst r. destruct res as [[ret|rd]|]; simpl in HOK.
      * exfalso. simpl in Htr. destruct Htr as (_ & _ & _ & _ & _ & Hlt).
        inversion HOK. unfold OK in *. lia.
      * simpl in Htr. destruct Htr as (earlier & last & Hlog & _ & Hret & Hd & Hag).
        exists earlier, last. repeat split; try assumption. subst rd.
        destruct (Z.lt_ge_cases (readback_seconds P last) (written_seconds P last))
          as [Hlt|Hge]; [|lia].
        assert (Hk : nth_error (session_log st') (List.length earlier) = Some last).
        { rewrite Hlog, nth_error_app2, Nat.sub_diag by lia. reflexivity. }
        apply (Hspec _ _ Hk) in Hlt. congruence.
      * discriminate.
    + intros (earlier & last & Hlog & Hret & Hle).
      assert (Hk : nth_error (session_log st') (List.length earlier) = Some last).
      { rewrite Hlog, nth_error_app2, Nat.sub_diag by lia. reflexivity. }
      assert (Hnag : settime_again P (settime_buffer P newtm) (xfer_data last) <> true).
      { intros Hag. apply (Hspec _ _ Hk) in Hag. lia. }
      subst r. destruct res as [[ret|rd]|]; simpl in *.
      * exfalso. destruct Htr as (e' & l' & Hlog' & _ & Hr' & Hlt).
        rewrite Hlog in Hlog'. apply app_inj_tail in Hlog'.
        destruct Hlog' as [_ ->]. lia.
      * reflexivity.
      * exfalso. destruct Htr as [_ Hall].
        destruct (Forall_nth_error _ _ _ _ Hall Hk) as [_ Hag]. auto.
Qed.

Lemma settime_repeats_on_rollover_witness :
  let run := up_rtc_settime pcf85263_platform (logged scripted_ops) 4
               (enabled_session readback_script) (mk_timespec 59 0) in
  fst run = Some OK /\
  (1 < List.length (session_log (snd run)))%nat /\
  Forall (fun x =>
            xfer_msgs x =
              [ mk_msg 400000 0x51 0 [0; 0; 0x59; 0; 0; 1; 4; 1; 2] 9;
                mk_msg 400000 0x51 0 [1] 1;
                mk_msg 400000 0x51 1 [] 1 ])
         (session_log (snd run)).
Proof.
  pose proof (settime_repeats_on_rollover pcf85263_platform _ scripted_ops 4
                readback_script (mk_timespec 59 0) (mk_tm 59 0 0 1 0 70 4) _ _
                eq_refl eq_refl)
    as (Hmsg & Hroll & _ & _).
  split; [reflexivity|]. split; [|exact Hmsg].
  destruct (Hroll 0%nat _ eq_refl) as [Hnext|[Hnone _]].
  - vm_compute. discriminate.
  - vm_compute. reflexivity.
  - exact Hnext.
  - discriminate Hnone.
Defined.

(** C3 (amended).  For every enabled session and every timespec, if the
    register map is sound ([register_map_ok]) and the calendar conversion of
    [newtime] succeeds with fields in their calendar ranges and a year
    since 1968 in [0,159], then [up_rtc_settime] followed by
    [up_rtc_getdatetime], on a bus that returns on read exactly the
    register bytes written, both return OK and the time read agrees with
    the broken-down time of [newtime] (month 0-based, year since 1900);
    [newtime] is the time rounded to the nearest second whenever that is
    representable as a [time_t]. *)
Theorem settime_getdatetime_roundtrip
    (P : platform) (st : rtc_state regfile) (tp : timespec) (tp0 newtm : tm)
    (fuel1 fuel2 : nat) :
  g_rtc_enabled st = true ->
  register_map_ok P ->
  settime_calendar P (settime_newtime P tp) = Some newtm ->
  tm_in_range (wday_tracked P) newtm ->
  0 <= tm_year newtm - 68 <= 159 ->
  (to_time_t P (tv_sec tp) = tv_sec tp ->
   to_time_t P (nearest_second tp) = nearest_second tp ->
   settime_newtime P tp = nearest_second tp) /\
  exists st1 tp' st2,
    up_rtc_settime P (echo_ops (I2C_M_READ P)) (S fuel1) st tp = (Some OK, st1) /\
    up_rtc_getdatetime P (echo_ops (I2C_M_READ P)) (S fuel2) st1 tp0 = (Some OK, tp', st2) /\
    tm_agree (wday_tracked P) tp' newtm.
Proof.
  intros Hen (Hsec & Hmin & Hhour & Hday & Hwd & Hmon & Haddr & Hread) Hcal
         (Rsec & Rmin & Rhour & Rday & Rmon & Rwd) Ryear.
  split; [apply settime_newtime_nearest|].
  set (data := [0; rtc_bin2bcd (tm_sec newtm); rtc_bin2bcd (tm_min newtm);
                rtc_bin2bcd (tm_hour newtm); rtc_bin2bcd (tm_mday newtm);
                if wday_tracked P then rtc_bin2bcd (tm_wday newtm) else 0;
                rtc_bin2bcd (tm_mon newtm + 1); rtc_bin2bcd (tm_year newtm - 68)]).
  destruct (echo_settime_transfer P (i2c (g_pcf85263 st))
              (to_uint8 (PCF85263_RTC_100TH_SECONDS P)) data Hread Haddr)
    as (dev1 & Hx1 & Hregs1); [simpl; lia|].
  destruct (echo_getdatetime_transfer P dev1 Hread) as (dev2 & Hx2).
  rewrite (regs_read_ext _ _ _ 7 Hregs1), (regs_read_ext _ _ _ 1 Hregs1) in Hx2.
  rewrite Haddr in Hx2. change 1 with (Z.of_nat 1) in Hx2.
  rewrite !regs_read_written in Hx2 by (simpl; lia).
  cbn [data firstn skipn] in Hx2.
  exists (mk_state true (mk_dev dev1)).
  eexists. exists (mk_state true (mk_dev dev2)).
  split; [|split].
  - unfold up_rtc_settime. rewrite Hen, Hcal. cbn [negb transfer_do_while].
    change (settime_buffer P newtm)
      with (to_uint8 (PCF85263_RTC_100TH_SECONDS P) :: data).
    rewrite Hx1. change (OK <? 0) with false. cbv iota.
    replace (settime_again P (to_uint8 (PCF85263_RTC_100TH_SECONDS P) :: data)
               [[nth 1 data 0]]) with false; [reflexivity|].
    symmetry. unfold settime_again, settime_seconds, byte_at.
    cbn [nth data]. apply gtb_same.
  - unfold up_rtc_getdatetime. cbn [g_rtc_enabled negb g_pcf85263 i2c transfer_do_while].
    rewrite Hx2. change (OK <? 0) with false. cbv iota.
    match goal with
    | |- context [getdatetime_again P ?rd] =>
        replace (getdatetime_again P rd) with false; [reflexivity|]
    end.
    symmetry. unfold getdatetime_again, getdatetime_buffer, getdatetime_seconds, byte_at.
    cbn [nth]. apply gtb_same.
  - unfold tm_agree, getdatetime_format. cbn [tm_sec tm_min tm_hour tm_mday tm_mon tm_year tm_wday].
    unfold byte_at, getdatetime_buffer. cbn [nth].
    rewrite !(to_uint8_small (rtc_bin2bcd _)) by apply rtc_bin2bcd_range.
    repeat split.
    + apply (masked_field_roundtrip 7 _ _ 59); auto; try lia. reflexivity.
    + apply (masked_field_roundtrip 7 _ _ 59); auto; try lia. reflexivity.
    + apply (masked_field_roundtrip 6 _ _ 23); auto; try lia. reflexivity.
    + apply (masked_field_roundtrip 6 _ _ 31); auto; try lia. reflexivity.
    + rewrite (masked_field_roundtrip 5 _ _ 12); auto; try lia. reflexivity.
    + rewrite rtc_bcd2bin_bin2bcd by lia. lia.
    + intros Hw. rewrite Hw. specialize (Rwd Hw).
      rewrite (to_uint8_small (rtc_bin2bcd _)) by apply rtc_bin2bcd_range.
      rewrite rtc_bcd2bin_bin2bcd by lia.
      apply (land_mask_keeps 3); auto; simpl; lia.
Qed.

Lemma settime_getdatetime_roundtrip_witness :
  exists st1 tp' st2,
    up_rtc_settime pcf85263_platform (echo_ops 1) 1
      (mk_state true (mk_dev regfile_zero)) (mk_timespec 1478027268 500000000)
      = (Some OK, st1) /\
    up_rtc_getdatetime pcf85263_platform (echo_ops 1) 1 st1 tm_zero
      = (Some OK, tp', st2) /\
    tm_agree true tp' (mk_tm 49 7 19 1 10 116 2).
Proof.
  refine (proj2 (settime_getdatetime_roundtrip pcf85263_platform
                   (mk_state true (mk_dev regfile_zero))
                   (mk_timespec 1478027268 500000000) tm_zero
                   (mk_tm 49 7 19 1 10 116 2) 0 0 eq_refl _ eq_refl _ _)).
  - unfold register_map_ok, mask_keeps. simpl.
    repeat split; try reflexivity. discriminate.
  - unfold tm_in_range. simpl. lia.
  - simpl. lia.
Defined.

(** C3 as stated fails: for a time in the year 2128 the year since 1968 is
    160, whose tens do not fit the high nibble; the image holds year byte
    0 and the time read back is in 1968. *)
Lemma settime_getdatetime_roundtrip_counterexample :
  let T := mk_timespec 5000000000 0 in
  let set := up_rtc_settime pcf85263_platform (echo_ops 1) 1
               (mk_state true (mk_dev regfile_zero)) T in
  let get := up_rtc_getdatetime pcf85263_platform (echo_ops 1) 1 (snd set) tm_zero in
  utc_calendar (nearest_second T) = Some (mk_tm 20 53 8 11 5 228 5) /\
  fst set = Some OK /\
  fst get = (Some OK, mk_tm 20 53 8 11 5 68 5) /\
  ~ tm_agree true (snd (fst get)) (mk_tm 20 53 8 11 5 228 5).
Proof.
  cbv zeta.
  split; [vm_compute; reflexivity|].
  split; [vm_compute; reflexivity|].
  split; [vm_compute; reflexivity|].
  intros (_ & _ & _ & _ & _ & Hyear & _).
  vm_compute in Hyear. discriminate.
Qed.

(** C8.  [up_rtc_getdatetime] at a weekday register that reads 0x10: the
    code decodes the whole byte and masks the result (10 & 7 = 2), where
    masking the register byte before decoding it gives 0. *)
Theorem getdatetime_weekday_masked_after_decoding :
  let run := up_rtc_getdatetime pcf85263_platform (logged scripted_ops) 1
               (enabled_session weekday_script) tm_zero in
  fst (fst run) = Some OK /\
  tm_wday (snd (fst run)) = 2 /\
  rtc_bcd2bin (Z.land 0x10 (PCF85263_RTC_WEEKDAYS_MASK pcf85263_platform)) = 0.
Proof.
  repeat split.
Qed.

(** C9 (amended).  In [up_rtc_settime] with the session enabled, the first
    message of every transfer is a 9-byte write whose byte 0 is the address
    of the hundredths register and whose byte 1 is 0 (clearing the
    hundredths), followed in order by the BCD encodings of seconds,
    minutes, hours, day-of-month, day-of-week (0 when the weekday is not
    tracked), month+1 and year-since-1968 of the rounded broken-down time;
    at least one such transfer is made. *)
Theorem settime_write_image
    (P : platform) (bus : Type) (ops : i2c_ops bus) (fuel : nat) (dev : bus)
    (tp : timespec) (newtm : tm) (r : option Z)
    (st' : rtc_state (bus * list i2c_xfer)) :
  settime_calendar P (settime_newtime P tp) = Some newtm ->
  up_rtc_settime P (logged ops) (S fuel) (enabled_session dev) tp = (r, st') ->
  session_log st' <> [] /\
  forall x, In x (session_log st') ->
    nth_error (xfer_msgs x) 0 =
      Some (mk_msg (CONFIG_PCF85263_I2C_FREQUENCY P) PCF85263_I2C_ADDRESS 0
              [ to_uint8 (PCF85263_RTC_100TH_SECONDS P);
                0;
                rtc_bin2bcd (tm_sec newtm);
                rtc_bin2bcd (tm_min newtm);
                rtc_bin2bcd (tm_hour newtm);
                rtc_bin2bcd (tm_mday newtm);
                if CONFIG_LIBC_LOCALTIME P || CONFIG_TIME_EXTENDED P
                then rtc_bin2bcd (tm_wday newtm) else 0;
                rtc_bin2bcd (tm_mon newtm + 1);
                rtc_bin2bcd (tm_year newtm - 68) ]
              9).
Proof.
  intros Hcal Hrun.
  apply (settime_enabled_run P ops (S fuel) dev tp newtm) in Hrun; [|assumption].
  destruct Hrun as (res & _ & _ & Hmsg & Htr). split.
  - intros Hnil. rewrite Hnil in Htr. unfold loop_trace in Htr.
    destruct res as [[ret|rd]|].
    + destruct Htr as (earlier & last & Hlog & _). destruct earlier; discriminate.
    + destruct Htr as (earlier & last & Hlog & _). destruct earlier; discriminate.
    + destruct Htr as [Hlen _]. discriminate.
  - intros x Hx. rewrite Forall_forall in Hmsg. rewrite (Hmsg x Hx). reflexivity.
Qed.

Lemma settime_write_image_witness :
  let run := up_rtc_settime pcf85263_platform (logged scripted_ops) 1
               (enabled_session readback_script) (mk_timespec 59 0) in
  session_log (snd run) <> [] /\
  forall x, In x (session_log (snd run)) ->
    nth_error (xfer_msgs x) 0 =
      Some (mk_msg 400000 0x51 0 [0; 0; 0x59; 0; 0; 1; 4; 1; 2] 9).
Proof.
  exact (settime_write_image pcf85263_platform _ scripted_ops 0 readback_script
           (mk_timespec 59 0) (mk_tm 59 0 0 1 0 70 4) _ _ eq_refl eq_refl).
Defined.

(** C9 as stated fails: 59 seconds after the epoch the 9 bytes sent are
    0, 0, 0x59, 0, 0, 1, 4, 1, 2; the byte after byte 0 is the cleared
    hundredths, not the seconds. *)
Lemma settime_write_image_counterexample :
  exists newtm x m,
    settime_calendar pcf85263_platform
      (settime_newtime pcf85263_platform (mk_timespec 59 0)) = Some newtm /\
    nth_error
      (session_log
         (snd (up_rtc_settime pcf85263_platform (logged scripted_ops) 1
                 (enabled_session readback_script) (mk_timespec 59 0)))) 0 = Some x /\
    nth_error (xfer_msgs x) 0 = Some m /\
    buffer m = [0; 0; 0x59; 0; 0; 1; 4; 1; 2] /\
    ~ write_image_as_specified pcf85263_platform newtm (buffer m).
Proof.
  eexists. eexists. eexists.
  split; [reflexivity|]. split; [reflexivity|]. split; [reflexivity|].
  split; [reflexivity|].
  unfold write_image_as_specified. intros (_ & _ & Himg).
  vm_compute in Himg. discriminate.
Qed.

(** ** Further properties of the codec *)

Lemma rtc_bin2bcd_low (v : Z) :
  v < 10 -> rtc_bin2bcd v = v mod 256.
Proof.
  intros Hv. unfold rtc_bin2bcd. rewrite bin2bcd_loop_below by assumption.
  rewrite Z.shiftl_0_l, Z.lor_0_l. reflexivity.
Qed.

(** X1.  Below 10 (negative values included) the loop of [rtc_bin2bcd]
    does not run and the result is the value converted to [uint8_t]. *)
Theorem rtc_bin2bcd_below_ten (v : Z) :
  v < 10 -> rtc_bin2bcd v = v mod 256.
Proof.
  exact (rtc_bin2bcd_low v).
Qed.

Lemma rtc_bin2bcd_below_ten_witness :
  -1 < 10 /\ rtc_bin2bcd (-1) = 255.
Proof.
  split; [lia | exact (rtc_bin2bcd_below_ten (-1) eq_refl)].
Defined.

(** X2.  For every non-negative value, [rtc_bin2bcd] returns the tens
    times 16 plus the units, reduced modulo 256: beyond 159 the tens
    spill out of the high nibble and are lost. *)
Theorem rtc_bin2bcd_formula (v : Z) :
  0 <= v -> rtc_bin2bcd v = (16 * (v / 10) + v mod 10) mod 256.
Proof.
  intros Hv.
  assert (Hr : 0 <= v mod 10 < 10) by (apply Z.mod_pos_bound; lia).
  destruct (Z.lt_ge_cases v 10) as [Hlt|Hge].
  - rewrite rtc_bin2bcd_low by assumption.
    rewrite (Z.div_small v 10), (Z.mod_small v 10) by lia. reflexivity.
  - unfold rtc_bin2bcd. rewrite bin2bcd_loop_spec; try lia.
    + simpl (0 + _).
      pose proof (to_uint8_range (v / 10)) as Hq.
      rewrite lor_nibbles by lia.
      unfold to_uint8.
      rewrite Z.add_mod, Z.mul_mod_idemp_r, <- Z.add_mod by lia. reflexivity.
    + rewrite Z2Nat.id by lia. apply Z.div_lt; lia.
Qed.

Lemma rtc_bin2bcd_formula_witness :
  0 <= 165 /\ rtc_bin2bcd 165 = 5.
Proof.
  split; [lia | exact (rtc_bin2bcd_formula 165 ltac:(lia))].
Defined.

Lemma rtc_bcd2bin_bounds (b : Z) : 0 <= rtc_bcd2bin b <= 165.
Proof.
  unfold rtc_bcd2bin. cbv zeta.
  pose proof (to_uint8_range b) as Hb.
  pose proof (byte_nibbles (to_uint8 b)) as Hn.
  assert (Hl : 0 <= Z.land (to_uint8 b) 0x0f < 16).
  { change 0x0f with (Z.ones 4). rewrite Z.land_ones by lia.
    apply Z.mod_pos_bound. lia. }
  assert (Hh : 0 <= Z.shiftr (to_uint8 b) 4) by (apply Z.shiftr_nonneg; lia).
  lia.
Qed.

(** X5.  Whatever byte it is given, [rtc_bcd2bin] returns a value in
    [0,165]. *)
Theorem rtc_bcd2bin_range (b : Z) : 0 <= rtc_bcd2bin b <= 165.
Proof.
  exact (rtc_bcd2bin_bounds b).
Qed.

(** X3.  Decoding undoes encoding exactly on [0,159]. *)
Theorem bcd_roundtrip_exact (v : Z) :
  rtc_bcd2bin (rtc_bin2bcd v) = v <-> 0 <= v < 160.
Proof.
  split; [|apply rtc_bcd2bin_bin2bcd].
  intros H. pose proof (rtc_bcd2bin_bounds (rtc_bin2bcd v)) as Hr.
  rewrite H in Hr.
  destruct (Z.lt_ge_cases v 160) as [Hlt|Hge]; [lia|]. exfalso.
  assert (Hc : v = 160 \/ v = 161 \/ v = 162 \/ v = 163 \/ v = 164 \/ v = 165) by lia.
  destruct Hc as [->|[->|[->|[->|[->| ->]]]]]; vm_compute in H; discriminate.
Qed.

(** X4.  On [0,159] the encoding is strictly increasing, so distinct
    values have distinct encodings and comparing encodings compares the
    values. *)
Theorem rtc_bin2bcd_increasing (v w : Z) :
  0 <= v -> v < w -> w < 160 -> rtc_bin2bcd v < rtc_bin2bcd w.
Proof.
  intros Hv Hvw Hw. rewrite !rtc_bin2bcd_digits by lia.
  pose proof (Z.div_mod v 10 ltac:(lia)).
  pose proof (Z.div_mod w 10 ltac:(lia)).
  pose proof (Z.mod_pos_bound v 10 ltac:(lia)).
  pose proof (Z.mod_pos_bound w 10 ltac:(lia)).
  lia.
Qed.

Lemma rtc_bin2bcd_increasing_witness :
  rtc_bin2bcd 59 < rtc_bin2bcd 60.
Proof.
  apply (rtc_bin2bcd_increasing 59 60); lia.
Defined.

(** X6.  On packed-BCD bytes, comparing the bytes is comparing the decoded
    values (this is what the loops rely on when they compare the masked
    seconds registers without decoding them). *)
Theorem valid_bcd_order (a b : Z) :
  valid_bcd a -> valid_bcd b -> (a < b <-> rtc_bcd2bin a < rtc_bcd2bin b).
Proof.
  intros Ha Hb.
  pose proof (valid_bcd_digits a Ha) as [Hah Hal].
  pose proof (valid_bcd_digits b Hb) as [Hbh Hbl].
  rewrite !rtc_bcd2bin_valid by assumption.
  pose proof (byte_nibbles a). pose proof (byte_nibbles b). lia.
Qed.

Lemma valid_bcd_order_witness :
  0x48 < 0x59 <-> rtc_bcd2bin 0x48 < rtc_bcd2bin 0x59.
Proof.
  apply (valid_bcd_order 0x48 0x59).
  - unfold valid_bcd. change (Z.shiftr 0x48 4) with 4.
    change (Z.land 0x48 0x0f) with 8. lia.
  - unfold valid_bcd. change (Z.shiftr 0x59 4) with 5.
    change (Z.land 0x59 0x0f) with 9. lia.
Defined.

(** ** Further properties of the operations *)

(** A mask never makes a non-negative value larger or negative. *)
Lemma land_le_l (x m : Z) : 0 <= x -> 0 <= Z.land x m <= x.
Proof.
  intros Hx. split; [apply Z.land_nonneg; auto|].
  assert (Hdisj : Z.land (Z.ldiff x m) (Z.land x m) = 0).
  { rewrite (Z.land_comm x m), Z.land_assoc, Z.land_ldiff. apply Z.land_0_l. }
  pose proof (Z.lor_ldiff_and x m) as Hsum.
  rewrite <- Z.lxor_lor, <- Z.add_nocarry_lxor in Hsum by assumption.
  assert (0 <= Z.ldiff x m) by (apply Z.ldiff_nonneg; auto).
  lia.
Qed.

Section PlainRuns.

Context (P : platform) {bus : Type} (ops : i2c_ops bus).

(** A loop that ends on a failed transfer ends on a negative status. *)
Lemma transfer_do_while_failed (msg : list i2c_msg_s) (again : list (list Z) -> bool)
    (fuel : nat) :
  forall (dev : bus) (ret : Z),
    fst (transfer_do_while ops msg again fuel dev) = Some (TransferFailed ret) ->
    ret < 0.
Proof.
  induction fuel as [|fuel IH]; intros dev ret H; simpl in H; [discriminate|].
  destruct (I2C_TRANSFER ops dev msg) as [[r rd] dev1].
  destruct (Z.ltb_spec r 0) as [Hneg|Hpos].
  - simpl in H. inversion H. subst. assumption.
  - destruct (again rd); [eapply IH; eassumption | discriminate].
Qed.

(** X7.  When [up_rtc_getdatetime] returns OK on an enabled session, the
    fields it has filled are bounded whatever the bus returned: seconds,
    minutes, hours and day-of-month lie in [0,165], the month in [-1,164],
    the year in [68,233]; the weekday lies in [0,165] where it is tracked
    and keeps the caller's value where it is not. *)
Theorem getdatetime_field_ranges (fuel : nat) (st st' : rtc_state bus) (tp tp' : tm) :
  g_rtc_enabled st = true ->
  up_rtc_getdatetime P ops fuel st tp = (Some OK, tp', st') ->
  0 <= tm_sec tp' <= 165 /\ 0 <= tm_min tp' <= 165 /\
  0 <= tm_hour tp' <= 165 /\ 0 <= tm_mday tp' <= 165 /\
  -1 <= tm_mon tp' <= 164 /\ 68 <= tm_year tp' <= 233 /\
  (if CONFIG_LIBC_LOCALTIME P || CONFIG_TIME_EXTENDED P
   then 0 <= tm_wday tp' <= 165 else tm_wday tp' = tm_wday tp).
Proof.
  intros Hen. unfold up_rtc_getdatetime. rewrite Hen. cbn [negb].
  pose proof (transfer_do_while_failed (getdatetime_msg P) (getdatetime_again P)
                fuel (i2c (g_pcf85263 st))) as Hfail.
  destruct (transfer_do_while ops (getdatetime_msg P) (getdatetime_again P) fuel
              (i2c (g_pcf85263 st))) as [[[ret|rd]|] dev'];
    intros H; inversion H; subst; clear H.
  - specialize (Hfail OK eq_refl). unfold OK in Hfail. lia.
  - unfold getdatetime_format. cbn [tm_sec tm_min tm_hour tm_mday tm_mon tm_year tm_wday].
    pose proof rtc_bcd2bin_bounds as Hr.
    repeat split; try apply Hr;
      try (match goal with
           | |- context [rtc_bcd2bin ?b] => specialize (Hr b); lia
           end).
    unfold wday_tracked.
    destruct (CONFIG_LIBC_LOCALTIME P || CONFIG_TIME_EXTENDED P); [|reflexivity].
    specialize (Hr (byte_at (getdatetime_buffer rd) 4)).
    pose proof (land_le_l (rtc_bcd2bin (byte_at (getdatetime_buffer rd) 4))
                  (PCF85263_RTC_WEEKDAYS_MASK P)). lia.
Qed.

(** X9.  Neither operation changes [g_rtc_enabled]: a session that is
    enabled stays enabled, one that is not stays so. *)
Theorem enabled_flag_kept (fuel : nat) (st : rtc_state bus) :
  (forall tp, g_rtc_enabled (snd (up_rtc_getdatetime P ops fuel st tp)) = g_rtc_enabled st) /\
  (forall tp, g_rtc_enabled (snd (up_rtc_settime P ops fuel st tp)) = g_rtc_enabled st).
Proof.
  split; intros tp.
  - unfold up_rtc_getdatetime. destruct (g_rtc_enabled st) eqn:Hen; cbn [negb].
    + destruct (transfer_do_while ops _ _ fuel (i2c (g_pcf85263 st)))
        as [[[ret|rd]|] dev']; reflexivity.
    + simpl. assumption.
  - unfold up_rtc_settime. destruct (g_rtc_enabled st) eqn:Hen; cbn [negb].
    + destruct (settime_calendar P (settime_newtime P tp)) as [newtm|];
        [|simpl; assumption].
      destruct (transfer_do_while ops _ _ fuel (i2c (g_pcf85263 st)))
        as [[[ret|rd]|] dev']; reflexivity.
    + simpl. assumption.
Qed.

End PlainRuns.

Lemma getdatetime_field_ranges_witness :
  let tp' := snd (fst (up_rtc_getdatetime pcf85263_platform scripted_ops 4
                         (mk_state true (mk_dev rollover_script)) tm_zero)) in
  0 <= tm_sec tp' <= 165 /\ 0 <= tm_min tp' <= 165 /\
  0 <= tm_hour tp' <= 165 /\ 0 <= tm_mday tp' <= 165 /\
  -1 <= tm_mon tp' <= 164 /\ 68 <= tm_year tp' <= 233 /\
  0 <= tm_wday tp' <= 165.
Proof.
  exact (getdatetime_field_ranges pcf85263_platform scripted_ops 4
           (mk_state true (mk_dev rollover_script)) _ tm_zero _ eq_refl eq_refl).
Defined.

(** ** Further properties of the operations on a recording bus *)

Section RecordedRuns.

Context (P : platform) {bus : Type} (ops : i2c_ops bus).

(** X8.  On an enabled session, when the calendar conversion fails
    [up_rtc_settime] returns [-EINVAL] without making a transfer: the bus
    and its record are left as they were. *)
Theorem settime_conversion_failure_no_transfer (fuel : nat)
    (st : rtc_state (bus * list i2c_xfer)) (tp : timespec) :
  g_rtc_enabled st = true ->
  settime_calendar P (settime_newtime P tp) = None ->
  up_rtc_settime P (logged ops) fuel st tp = (Some (- EINVAL P), st).
Proof.
  intros Hen Hcal. apply settime_conversion_failure; assumption.
Qed.

(** X10.  After [pcf85263_rtc_initialize], [up_rtc_getdatetime] goes to the
    bus: it makes at least one transfer, and every transfer is the same
    four messages to address 0x51: the seconds register address written,
    7 bytes read, the seconds register address written again, 1 byte
    read. *)
Theorem getdatetime_after_initialize (fuel : nat) (dev : bus)
    (st0 st' : rtc_state (bus * list i2c_xfer)) (tp tp' : tm) (r : option Z) :
  up_rtc_getdatetime P (logged ops) (S fuel)
    (snd (pcf85263_rtc_initialize (dev, []) st0)) tp = (r, tp', st') ->
  session_log st' <> [] /\
  forall x, In x (session_log st') ->
    xfer_msgs x =
      [ mk_msg (CONFIG_PCF85263_I2C_FREQUENCY P) 0x51 0
               [to_uint8 (PCF85263_RTC_SECONDS P)] 1;
        mk_msg (CONFIG_PCF85263_I2C_FREQUENCY P) 0x51 (I2C_M_READ P) [] 7;
        mk_msg (CONFIG_PCF85263_I2C_FREQUENCY P) 0x51 0
               [to_uint8 (PCF85263_RTC_SECONDS P)] 1;
        mk_msg (CONFIG_PCF85263_I2C_FREQUENCY P) 0x51 (I2C_M_READ P) [] 1 ].
Proof.
  intros Hrun. change (snd (pcf85263_rtc_initialize (dev, []) st0))
    with (enabled_session dev) in Hrun.
  apply getdatetime_enabled_run in Hrun.
  destruct Hrun as (res & _ & _ & _ & Hmsg & Htr). split.
  - intros Hnil. rewrite Hnil in Htr. unfold loop_trace in Htr.
    destruct res as [[ret|rd]|].
    + destruct Htr as (earlier & last & Hlog & _). destruct earlier; discriminate.
    + destruct Htr as (earlier & last & Hlog & _). destruct earlier; discriminate.
    + destruct Htr as [Hlen _]. discriminate.
  - intros x Hx. rewrite Forall_forall in Hmsg. rewrite (Hmsg x Hx). reflexivity.
Qed.

(** X11.  Every transfer of [up_rtc_settime] is three messages to address
    0x51: the 9-byte image written, the seconds register address written,
    1 byte read. *)
Theorem settime_transfer_messages (fuel : nat) (dev : bus) (tp : timespec)
    (newtm : tm) (r : option Z) (st' : rtc_state (bus * list i2c_xfer)) :
  settime_calendar P (settime_newtime P tp) = Some newtm ->
  up_rtc_settime P (logged ops) fuel (enabled_session dev) tp = (r, st') ->
  forall x, In x (session_log st') ->
    exists image,
      List.length image = 9%nat /\
      xfer_msgs x =
        [ mk_msg (CONFIG_PCF85263_I2C_FREQUENCY P) 0x51 0 image 9;
          mk_msg (CONFIG_PCF85263_I2C_FREQUENCY P) 0x51 0
                 [to_uint8 (PCF85263_RTC_SECONDS P)] 1;
          mk_msg (CONFIG_PCF85263_I2C_FREQUENCY P) 0x51 (I2C_M_READ P) [] 1 ].
Proof.
  intros Hcal Hrun x Hx.
  apply (settime_enabled_run P ops fuel dev tp newtm) in Hrun; [|assumption].
  destruct Hrun as (res & _ & _ & Hmsg & _).
  rewrite Forall_forall in Hmsg.
  exists (settime_buffer P newtm). split; [reflexivity|].
  rewrite (Hmsg x Hx). reflexivity.
Qed.

(** X13.  An operation on an enabled session is still in its loop when the
    bound on the number of transfers is reached only if every one of the
    transfers it made succeeded and asked for a repeat (second seconds
    sample smaller than the first, or read-back seconds smaller than the
    written ones); [up_rtc_getdatetime] has then not touched [*tp]. *)
Theorem unfinished_only_on_rollovers (fuel : nat) (dev : bus) :
  (forall tp tp' st',
     up_rtc_getdatetime P (logged ops) fuel (enabled_session dev) tp = (None, tp', st') ->
     tp' = tp /\ List.length (session_log st') = fuel /\
     forall x, In x (session_log st') ->
       0 <= xfer_ret x /\ reread_seconds P x < bulk_seconds P x) /\
  (forall tp st',
     up_rtc_settime P (logged ops) fuel (enabled_session dev) tp = (None, st') ->
     List.length (session_log st') = fuel /\
     forall x, In x (session_log st') ->
       0 <= xfer_ret x /\ readback_seconds P x < written_seconds P x).
Proof.
  split.
  - intros tp tp' st' Hrun. apply getdatetime_enabled_run in Hrun.
    destruct Hrun as (res & Hr & Htp & _ & _ & Htr).
    destruct res as [[ret|rd]|]; try discriminate.
    destruct Htr as [Hlen Hall]. rewrite Forall_forall in Hall.
    split; [assumption|]. split; [assumption|].
    intros x Hx. split; [apply (Hall x Hx)|].
    apply getdatetime_again_spec, (Hall x Hx).
  - intros tp st' Hrun.
    destruct (settime_calendar P (settime_newtime P tp)) as [newtm|] eqn:Hcal.
    + apply (settime_enabled_run P ops fuel dev tp newtm) in Hrun; [|assumption].
      destruct Hrun as (res & Hr & _ & Hmsg & Htr).
      destruct res as [[ret|rd]|]; try discriminate.
      destruct Htr as [Hlen Hall]. rewrite Forall_forall in Hall, Hmsg.
      split; [assumption|]. intros x Hx. split; [apply (Hall x Hx)|].
      apply (settime_again_spec P newtm x (Hmsg x Hx)), (Hall x Hx).
    + unfold up_rtc_settime, enabled_session in Hrun. simpl in Hrun.
      rewrite Hcal in Hrun. discriminate.
Qed.

End RecordedRuns.

(** X12.  On an enabled session a returned status is decided by the last
    transfer made: it is OK when that transfer returned a non-negative
    status (a positive status of the bus is reported as OK, not passed
    through) and it is that transfer's own status when this is negative.
    When the calendar conversion fails, [up_rtc_settime] returns [-EINVAL]
    and no transfer has been made. *)
Theorem enabled_status
    (P : platform) (bus : Type) (ops : i2c_ops bus) (fuel : nat) (dev : bus) :
  (forall (tp tp' : tm) (z : Z) (st' : rtc_state (bus * list i2c_xfer)),
     up_rtc_getdatetime P (logged ops) fuel (enabled_session dev) tp = (Some z, tp', st') ->
     exists earlier last,
       session_log st' = earlier ++ [last] /\
       ((z = OK /\ 0 <= xfer_ret last) \/ (z = xfer_ret last /\ xfer_ret last < 0))) /\
  (forall (tp : timespec) (z : Z) (st' : rtc_state (bus * list i2c_xfer)),
     up_rtc_settime P (logged ops) fuel (enabled_session dev) tp = (Some z, st') ->
     match settime_calendar P (settime_newtime P tp) with
     | None => z = - EINVAL P /\ session_log st' = []
     | Some _ =>
         exists earlier last,
           session_log st' = earlier ++ [last] /\
           ((z = OK /\ 0 <= xfer_ret last) \/ (z = xfer_ret last /\ xfer_ret last < 0))
     end).
Proof.
  assert (Hlast : forall again res log z,
            loop_trace again fuel res log -> status_of res = Some z ->
            exists earlier last,
              log = earlier ++ [last] /\
              ((z = OK /\ 0 <= xfer_ret last) \/ (z = xfer_ret last /\ xfer_ret last < 0))).
  { intros again res log z Htr Hz. destruct res as [[ret|rd]|]; simpl in Htr, Hz.
    - destruct Htr as (earlier & last & Hlog & _ & Hret & Hneg).
      inversion Hz; subst. exists earlier, last. split; [reflexivity|]. right. lia.
    - destruct Htr as (earlier & last & Hlog & _ & Hret & _).
      inversion Hz; subst. exists earlier, last. split; [reflexivity|]. left. auto.
    - discriminate. }
  split.
  - intros tp tp' z st' Hrun. apply getdatetime_enabled_run in Hrun.
    destruct Hrun as (res & Hr & _ & _ & _ & Htr).
    eapply Hlast; [eassumption | congruence].
  - intros tp z st' Hrun.
    destruct (settime_calendar P (settime_newtime P tp)) as [newtm|] eqn:Hcal.
    + apply (settime_enabled_run P ops fuel dev tp newtm) in Hrun; [|assumption].
      destruct Hrun as (res & Hr & _ & _ & Htr).
      eapply Hlast; [eassumption | congruence].
    + unfold up_rtc_settime, enabled_session in Hrun. simpl in Hrun.
      rewrite Hcal in Hrun. inversion Hrun; subst. split; reflexivity.
Qed.

Lemma enabled_status_witness :
  let run := up_rtc_getdatetime pcf85263_platform (logged scripted_ops) 4
               (enabled_session positive_status_script) tm_zero in
  fst (fst run) = Some OK /\
  exists earlier last,
    session_log (snd run) = earlier ++ [last] /\
    ((OK = OK /\ 0 <= xfer_ret last) \/ (OK = xfer_ret last /\ xfer_ret last < 0)).
Proof.
  split; [reflexivity|].
  exact (proj1 (enabled_status pcf85263_platform _ scripted_ops 4
                  positive_status_script) tm_zero _ OK _ eq_refl).
Defined.

Lemma settime_conversion_failure_no_transfer_witness :
  up_rtc_settime no_calendar_platform (logged scripted_ops) 4
    (enabled_session readback_script) (mk_timespec 59 0)
  = (Some (-22), enabled_session readback_script).
Proof.
  exact (settime_conversion_failure_no_transfer no_calendar_platform scripted_ops 4
           (enabled_session readback_script) (mk_timespec 59 0) eq_refl eq_refl).
Defined.

Lemma getdatetime_after_initialize_witness :
  let run := up_rtc_getdatetime pcf85263_platform (logged scripted_ops) 4
               (snd (pcf85263_rtc_initialize (rollover_script, [])
                       (mk_state false (mk_dev ([], []))))) tm_zero in
  session_log (snd run) <> [] /\
  forall x, In x (session_log (snd run)) ->
    xfer_msgs x = [ mk_msg 400000 0x51 0 [1] 1; mk_msg 400000 0x51 1 [] 7;
                    mk_msg 400000 0x51 0 [1] 1; mk_msg 400000 0x51 1 [] 1 ].
Proof.
  exact (getdatetime_after_initialize pcf85263_platform scripted_ops 3
           rollover_script (mk_state false (mk_dev ([], []))) _ tm_zero _ _ eq_refl).
Defined.

Lemma settime_transfer_messages_witness :
  let x := nth 0 (session_log
                    (snd (up_rtc_settime pcf85263_platform (logged scripted_ops) 4
                            (enabled_session readback_script) (mk_timespec 59 0))))
               (mk_xfer [] 0 []) in
  exists image,
    List.length image = 9%nat /\
    xfer_msgs x = [ mk_msg 400000 0x51 0 image 9; mk_msg 400000 0x51 0 [1] 1;
                    mk_msg 400000 0x51 1 [] 1 ].
Proof.
  refine (settime_transfer_messages pcf85263_platform scripted_ops 4 readback_script
            (mk_timespec 59 0) (mk_tm 59 0 0 1 0 70 4) _ _ eq_refl eq_refl _ _).
  left. reflexivity.
Defined.

Lemma unfinished_only_on_rollovers_witness :
  let run := up_rtc_getdatetime pcf85263_platform (logged scripted_ops) 3
               (enabled_session always_rollover_script) tm_zero in
  fst (fst run) = None /\ snd (fst run) = tm_zero /\
  List.length (session_log (snd run)) = 3%nat.
Proof.
  pose proof (proj1 (unfinished_only_on_rollovers pcf85263_platform scripted_ops 3
                       always_rollover_script) tm_zero _ _ eq_refl) as (Htp & Hlen & _).
  split; [reflexivity|]. split; [exact Htp | exact Hlen].
Defined.

(** ** The operations on the register file *)

(** A message that carries at most an address byte changes no register. *)
Lemma echo_msg_keeps_regs (m_read : Z) (acc : list (list Z) * regfile)
    (m : i2c_msg_s) (n : Z) :
  (List.length (buffer m) <= 1)%nat ->
  regs (snd (echo_msg m_read acc m)) n = regs (snd acc) n.
Proof.
  intros Hlen. destruct acc as [rd dev]. unfold echo_msg.
  destruct (Z.land (flags m) m_read =? 0); [|reflexivity].
  destruct (buffer m) as [|a data]; [reflexivity|].
  destruct data; [|simpl in Hlen; lia].
  simpl. apply regs_write_nil.
Qed.

Lemma echo_transfer_keeps_regs (m_read : Z) (msgs : list i2c_msg_s) (n : Z) :
  Forall (fun m => (List.length (buffer m) <= 1)%nat) msgs ->
  forall dev,
    regs (snd (I2C_TRANSFER (echo_ops m_read) dev msgs)) n = regs dev n.
Proof.
  intros Hall dev. cbn [I2C_TRANSFER echo_ops].
  assert (Hfold : forall acc,
            regs (snd (fold_left (echo_msg m_read) msgs acc)) n = regs (snd acc) n).
  { induction Hall as [|m msgs Hm _ IH]; intros acc; [reflexivity|].
    simpl. rewrite IH. apply echo_msg_keeps_regs. assumption. }
  specialize (Hfold ([], dev)).
  destruct (fold_left (echo_msg m_read) msgs ([], dev)) as [rd dev'].
  exact Hfold.
Qed.

Lemma echo_loop_keeps_regs (m_read : Z) (msgs : list i2c_msg_s)
    (again : list (list Z) -> bool) (n : Z) :
  Forall (fun m => (List.length (buffer m) <= 1)%nat) msgs ->
  forall fuel dev,
    regs (snd (transfer_do_while (echo_ops m_read) msgs again fuel dev)) n = regs dev n.
Proof.
  intros Hall fuel. induction fuel as [|fuel IH]; intros dev; [reflexivity|].
  cbn [transfer_do_while].
  pose proof (echo_transfer_keeps_regs m_read msgs n Hall dev) as Hx.
  destruct (I2C_TRANSFER (echo_ops m_read) dev msgs) as [[ret rd] dev1].
  simpl in Hx.
  destruct (ret <? 0); [exact Hx|].
  destruct (again rd); [rewrite IH; exact Hx | exact Hx].
Qed.

(** X14.  [up_rtc_getdatetime] only reads: on the register file no
    register changes, whether the session is enabled or not and however
    many times the transfer is repeated. *)
Theorem getdatetime_keeps_registers (P : platform) (m_read : Z) (fuel : nat)
    (st : rtc_state regfile) (tp : tm) (n : Z) :
  regs (i2c (g_pcf85263 (snd (up_rtc_getdatetime P (echo_ops m_read) fuel st tp)))) n
  = regs (i2c (g_pcf85263 st)) n.
Proof.
  unfold up_rtc_getdatetime.
  destruct (negb (g_rtc_enabled st)); [reflexivity|].
  assert (Hall : Forall (fun m => (List.length (buffer m) <= 1)%nat) (getdatetime_msg P)).
  { unfold getdatetime_msg. repeat constructor. }
  pose proof (echo_loop_keeps_regs m_read (getdatetime_msg P) (getdatetime_again P) n
                Hall fuel (i2c (g_pcf85263 st))) as Hloop.
  destruct (transfer_do_while (echo_ops m_read) (getdatetime_msg P)
              (getdatetime_again P) fuel (i2c (g_pcf85263 st)))
    as [[[ret|rd]|] dev']; exact Hloop.
Qed.

(** X15.  On the register file (read flag non-zero, seconds register next
    to the hundredths register) [up_rtc_settime] returns OK after a single
    transfer whatever the broken-down time is; afterwards the eight
    registers from the hundredths register on hold 0 and the seven encoded
    fields, and every other register is as before. *)
Theorem settime_registers (P : platform) (fuel : nat) (st : rtc_state regfile)
    (tp : timespec) (newtm : tm) :
  g_rtc_enabled st = true ->
  I2C_M_READ P <> 0 ->
  to_uint8 (PCF85263_RTC_SECONDS P) = to_uint8 (PCF85263_RTC_100TH_SECONDS P) + 1 ->
  settime_calendar P (settime_newtime P tp) = Some newtm ->
  exists st1,
    up_rtc_settime P (echo_ops (I2C_M_READ P)) (S fuel) st tp = (Some OK, st1) /\
    (forall k, (k < 8)%nat ->
       regs (i2c (g_pcf85263 st1)) (to_uint8 (PCF85263_RTC_100TH_SECONDS P) + Z.of_nat k)
       = nth k [ 0;
                 rtc_bin2bcd (tm_sec newtm);
                 rtc_bin2bcd (tm_min newtm);
                 rtc_bin2bcd (tm_hour newtm);
                 rtc_bin2bcd (tm_mday newtm);
                 if CONFIG_LIBC_LOCALTIME P || CONFIG_TIME_EXTENDED P
                 then rtc_bin2bcd (tm_wday newtm) else 0;
                 rtc_bin2bcd (tm_mon newtm + 1);
                 rtc_bin2bcd (tm_year newtm - 68) ] 0) /\
    (forall n, n < to_uint8 (PCF85263_RTC_100TH_SECONDS P) \/
               to_uint8 (PCF85263_RTC_100TH_SECONDS P) + 8 <= n ->
       regs (i2c (g_pcf85263 st1)) n = regs (i2c (g_pcf85263 st)) n).
Proof.
  intros Hen Hread Haddr Hcal.
  set (data := [0; rtc_bin2bcd (tm_sec newtm); rtc_bin2bcd (tm_min newtm);
                rtc_bin2bcd (tm_hour newtm); rtc_bin2bcd (tm_mday newtm);
                if wday_tracked P then rtc_bin2bcd (tm_wday newtm) else 0;
                rtc_bin2bcd (tm_mon newtm + 1); rtc_bin2bcd (tm_year newtm - 68)]).
  destruct (echo_settime_transfer P (i2c (g_pcf85263 st))
              (to_uint8 (PCF85263_RTC_100TH_SECONDS P)) data Hread Haddr)
    as (dev1 & Hx1 & Hregs1); [simpl; lia|].
  exists (mk_state true (mk_dev dev1)). split; [|split].
  - unfold up_rtc_settime. rewrite Hen, Hcal. cbn [negb transfer_do_while].
    change (settime_buffer P newtm)
      with (to_uint8 (PCF85263_RTC_100TH_SECONDS P) :: data).
    rewrite Hx1. change (OK <? 0) with false. cbv iota.
    replace (settime_again P (to_uint8 (PCF85263_RTC_100TH_SECONDS P) :: data)
               [[nth 1 data 0]]) with false; [reflexivity|].
    symmetry. unfold settime_again, settime_seconds, byte_at.
    cbn [nth data]. apply gtb_same.
  - intros k Hk. cbn [g_pcf85263 i2c]. rewrite Hregs1.
    apply (regs_write_at _ _ data k). simpl. lia.
  - intros n Hn. cbn [g_pcf85263 i2c]. rewrite Hregs1.
    unfold regs_write. change (Z.of_nat (List.length data)) with 8.
    destruct (Z.leb_spec (to_uint8 (PCF85263_RTC_100TH_SECONDS P)) n);
      destruct (Z.ltb_spec n (to_uint8 (PCF85263_RTC_100TH_SECONDS P) + 8));
      simpl; try reflexivity; lia.
Qed.

Lemma settime_registers_witness :
  exists st1,
    up_rtc_settime pcf85263_platform (echo_ops 1) 1
      (mk_state true (mk_dev regfile_zero)) (mk_timespec 5000000000 0) = (Some OK, st1) /\
    (forall k, (k < 8)%nat ->
       regs (i2c (g_pcf85263 st1)) (0 + Z.of_nat k)
       = nth k [0; 0x20; 0x53; 0x08; 0x11; 0x05; 0x06; 0x00] 0) /\
    (forall n, n < 0 \/ 0 + 8 <= n -> regs (i2c (g_pcf85263 st1)) n = 0).
Proof.
  exact (settime_registers pcf85263_platform 0 (mk_state true (mk_dev regfile_zero))
           (mk_timespec 5000000000 0) (mk_tm 20 53 8 11 5 228 5)
           eq_refl ltac:(discriminate) eq_refl eq_refl).
Defined.
